(** * milvus_explorer: a command-line inspector for a Milvus Lite file

    Shallow embedding of [src/milvus_explorer.py].  The tool is one
    function, [main], which talks to the file system, to the database
    client and to the terminal.  It is embedded as a program tree
    ([prog]) whose leaves are results and whose nodes are either a
    printed output or a call to the outside world; [run] executes a
    tree against an arbitrary stateful environment and records the
    trace of everything that happened. *)

From Stdlib Require Import ZArith NArith String Ascii DecimalString Bool Lia List.
Import ListNotations.

Set Warnings "-register-all".

Set Implicit Arguments.

(* ================================================================= *)
(** ** Python strings and values *)

Module Py.

(** A Python [str] is a sequence of Unicode code points. *)
Definition pystr := list N.

(** The source file is UTF-8 (its second line says so); string
    literals of the source are decoded from their bytes. *)
Fixpoint utf8_decode (bs : list N) : pystr :=
  match bs with
  | [] => []
  | b :: rest =>
      if (b <? 128)%N then b :: utf8_decode rest
      else if (b <? 224)%N then
        match rest with
        | b1 :: r => ((b mod 32) * 64 + b1 mod 64)%N :: utf8_decode r
        | _ => []
        end
      else if (b <? 240)%N then
        match rest with
        | b1 :: b2 :: r =>
            ((b mod 16) * 4096 + (b1 mod 64) * 64 + b2 mod 64)%N :: utf8_decode r
        | _ => []
        end
      else
        match rest with
        | b1 :: b2 :: b3 :: r =>
            ((b mod 8) * 262144 + (b1 mod 64) * 4096 + (b2 mod 64) * 64 + b3 mod 64)%N
              :: utf8_decode r
        | _ => []
        end
  end.

Definition u (s : string) : pystr :=
  utf8_decode (map N_of_ascii (list_ascii_of_string s)).

(** The newline character, written [\n] in the source. *)
Definition nl : pystr := [10%N].

(** The empty string. *)
Definition empty : pystr := [].

Fixpoint str_eqb (a b : pystr) : bool :=
  match a, b with
  | [], [] => true
  | x :: a', y :: b' => (x =? y)%N && str_eqb a' b'
  | _, _ => false
  end.

(** [str(n)] for an [int]. *)
Definition str_of_int (z : Z) : pystr :=
  u (NilZero.string_of_int (Z.to_int z)).

(** A Python [float], by its 64 bits. *)
Inductive pyfloat := Float64 (bits : Z).

Definition float_nonzero (f : pyfloat) : bool :=
  let 'Float64 b := f in negb (b mod 2 ^ 63 =? 0)%Z.

(** The values the client hands back and [json.loads] produces. *)
Inductive pyval :=
| PyNone
| PyBool (b : bool)
| PyInt (z : Z)
| PyFloat (f : pyfloat)
| PyStr (s : pystr)
| PyList (l : list pyval)
| PyDict (d : list (pystr * pyval))
| PyNdarray (a : list pyfloat).

(** A [dict] with string keys, in insertion order. *)
Definition dict := list (pystr * pyval).

(** [d.get(k)] / [k in d] / [d[k]] once membership is known. *)
Fixpoint lookup (k : pystr) (d : dict) : option pyval :=
  match d with
  | [] => None
  | (k', v) :: d' => if str_eqb k k' then Some v else lookup k d'
  end.

(** [k in names] for a list of strings. *)
Fixpoint mem (k : pystr) (names : list pystr) : bool :=
  match names with
  | [] => false
  | n :: names' => str_eqb k n || mem k names'
  end.

(** An exception object: [type(e).__name__] and [str(e)]. *)
Inductive exn := Exn (type_name : pystr) (message : pystr).

Definition exn_type (e : exn) : pystr := let 'Exn t _ := e in t.
Definition exn_str (e : exn) : pystr := let 'Exn _ m := e in m.

Inductive result (A : Type) :=
| Ok (a : A)
| Raise (e : exn).
Arguments Ok {A} a.
Arguments Raise {A} e.

(** The places where the interpreter itself raises. *)
Inductive fault :=
| NoLen (v : pyval)             (* len(v) on a value without length *)
| NotSliceable (v : pyval)      (* v[:n] on a value that has no slices *)
| BadConcat (v : pyval)         (* v + "..." where v is not a str *)
| NoItems (v : pyval)           (* v.items() where v is not a dict *)
| MissingKey (k : pystr)        (* d[k] where k is not in d *)
| AmbiguousTruth (v : pyval).   (* bool(array) with several elements *)

(** What the tool takes from the interpreter and from the libraries
    it imports ([json], [numpy]): only their input/output behaviour
    matters here. *)
Class Runtime := {
  json_loads : pystr -> result pyval;        (* json.loads *)
  format_4f : pyval -> result pystr;         (* format(v, ".4f") *)
  np_linalg_norm : pyval -> result pyval;    (* np.linalg.norm *)
  py_repr : pyval -> pystr;                  (* str() of floats and containers *)
  raise_of : fault -> exn                    (* the exception raised at a fault *)
}.

Section Builtins.
Context {RT : Runtime}.

(** [str(v)], as an f-string field renders it. *)
Definition py_str (v : pyval) : pystr :=
  match v with
  | PyStr s => s
  | PyInt z => str_of_int z
  | PyNone => u "None"
  | PyBool true => u "True"
  | PyBool false => u "False"
  | _ => py_repr v
  end.

(** [len(v)]. *)
Definition py_len (v : pyval) : result Z :=
  match v with
  | PyStr s => Ok (Z.of_nat (length s))
  | PyList l => Ok (Z.of_nat (length l))
  | PyDict d => Ok (Z.of_nat (length d))
  | PyNdarray a => Ok (Z.of_nat (length a))
  | _ => Raise (raise_of (NoLen v))
  end.

(** [bool(v)]. *)
Definition py_truth (v : pyval) : result bool :=
  match v with
  | PyNone => Ok false
  | PyBool b => Ok b
  | PyInt z => Ok (negb (z =? 0)%Z)
  | PyFloat f => Ok (float_nonzero f)
  | PyStr s => Ok (negb (Nat.eqb (length s) 0))
  | PyList l => Ok (negb (Nat.eqb (length l) 0))
  | PyDict d => Ok (negb (Nat.eqb (length d) 0))
  | PyNdarray [] => Ok false
  | PyNdarray [x] => Ok (float_nonzero x)
  | PyNdarray _ => Raise (raise_of (AmbiguousTruth v))
  end.

(** The first elements selected by the slice [[:n]]: a negative [n]
    counts from the end. *)
Definition slice_to {A} (n : Z) (l : list A) : list A :=
  if (0 <=? n)%Z then firstn (Z.to_nat n) l
  else firstn (Z.to_nat (Z.of_nat (length l) + n)) l.

(** [v[:n]]. *)
Definition py_slice_to (n : Z) (v : pyval) : result pyval :=
  match v with
  | PyStr s => Ok (PyStr (slice_to n s))
  | PyList l => Ok (PyList (slice_to n l))
  | PyNdarray a => Ok (PyNdarray (slice_to n a))
  | _ => Raise (raise_of (NotSliceable v))
  end.

(** [v + s] for a string [s]. *)
Definition py_add_str (v : pyval) (s : pystr) : result pyval :=
  match v with
  | PyStr a => Ok (PyStr (a ++ s))
  | _ => Raise (raise_of (BadConcat v))
  end.

(** [v.items()]. *)
Definition py_items (v : pyval) : result dict :=
  match v with
  | PyDict d => Ok d
  | _ => Raise (raise_of (NoItems v))
  end.

(** [d[k]]. *)
Definition py_getitem (d : dict) (k : pystr) : result pyval :=
  match lookup k d with
  | Some v => Ok v
  | None => Raise (raise_of (MissingKey k))
  end.

(** [isinstance(v, list)]. *)
Definition is_list (v : pyval) : bool :=
  match v with PyList _ => true | _ => false end.

(** [isinstance(v, np.ndarray)]. *)
Definition is_ndarray (v : pyval) : bool :=
  match v with PyNdarray _ => true | _ => false end.

End Builtins.

End Py.
Import Py.

(* ================================================================= *)
(** ** The outside world: terminal, file system, database client *)

Module World.

(** What [describe_collection] returns, as far as the tool reads it:
    the entry under ["description"] and the names of the schema
    fields under ["fields"] (each schema field carries a name);
    either entry may be missing. *)
Record collection_info := {
  info_description : option pyval;
  info_fields : option (list pystr)
}.

(** What reaches the terminal. *)
Inductive output :=
| Line (s : pystr)                                          (* print(s) *)
| Grid (headers : list pystr) (rows : list (list pyval))    (* print(tabulate(rows, headers, tablefmt="grid")) *)
| Traceback (e : exn).                                      (* traceback.print_exc() *)

(** The calls [main] makes: one to the file system, the others to
    the database client. *)
Inductive call :=
| PathExists (path : pystr)                           (* os.path.exists *)
| Connect (uri token db_name : pystr)                 (* MilvusClient(uri=, token=, db_name=) *)
| HasCollection (name : pystr)
| ListCollections
| DescribeCollection (name : pystr)
| HasAttr (attr : pystr)                              (* hasattr(client, attr) *)
| GetCollectionStats (name : pystr)
| Query (collection_name filter : pystr) (output_fields : list pystr)
        (limit : Z) (offset : option Z)
| Search (collection_name : pystr) (data : list pyval) (anns_field : pystr)
         (param : dict) (limit : Z) (output_fields : list pystr).

Definition reply (c : call) : Type :=
  match c with
  | PathExists _ => bool
  | Connect _ _ _ => result unit
  | HasCollection _ => result bool
  | ListCollections => result (list pystr)
  | DescribeCollection _ => result collection_info
  | HasAttr _ => bool
  | GetCollectionStats _ => result dict
  | Query _ _ _ _ _ => result (list dict)
  | Search _ _ _ _ _ _ => result (list (list dict))
  end.

(** One entry of a trace: an output, or a call with its answer. *)
Inductive event :=
| Printed (o : output)
| EvPathExists (path : pystr) (r : bool)
| EvConnect (uri token db_name : pystr) (r : result unit)
| EvHasCollection (name : pystr) (r : result bool)
| EvListCollections (r : result (list pystr))
| EvDescribeCollection (name : pystr) (r : result collection_info)
| EvHasAttr (attr : pystr) (r : bool)
| EvGetCollectionStats (name : pystr) (r : result dict)
| EvQuery (collection_name filter : pystr) (output_fields : list pystr)
          (limit : Z) (offset : option Z) (r : result (list dict))
| EvSearch (collection_name : pystr) (data : list pyval) (anns_field : pystr)
           (param : dict) (limit : Z) (output_fields : list pystr)
           (r : result (list (list dict))).

Definition observe (c : call) : reply c -> event :=
  match c with
  | PathExists p => EvPathExists p
  | Connect a b d => EvConnect a b d
  | HasCollection n => EvHasCollection n
  | ListCollections => EvListCollections
  | DescribeCollection n => EvDescribeCollection n
  | HasAttr a => EvHasAttr a
  | GetCollectionStats n => EvGetCollectionStats n
  | Query c f o l off => EvQuery c f o l off
  | Search c d a p l o => EvSearch c d a p l o
  end.

(** Calls that reach the database client (everything but the file
    system test and the attribute probe). *)
Definition is_client_call (e : event) : bool :=
  match e with
  | Printed _ | EvPathExists _ _ | EvHasAttr _ _ => false
  | _ => true
  end.

Definition is_connect (e : event) : bool :=
  match e with EvConnect _ _ _ _ => true | _ => false end.

Definition is_query (e : event) : bool :=
  match e with EvQuery _ _ _ _ _ _ => true | _ => false end.

Definition is_search (e : event) : bool :=
  match e with EvSearch _ _ _ _ _ _ _ => true | _ => false end.

Definition is_printed (e : event) : bool :=
  match e with Printed _ => true | _ => false end.

(** Program trees. *)
Inductive prog (A : Type) : Type :=
| Ret (a : A)
| Out (o : output) (k : prog A)
| Call (c : call) (k : reply c -> prog A).
Arguments Ret {A} a.
Arguments Out {A} o k.
Arguments Call {A} c k.

Fixpoint bind {A B} (p : prog A) (f : A -> prog B) : prog B :=
  match p with
  | Ret a => f a
  | Out o k => Out o (bind k f)
  | Call c k => Call c (fun r => bind (k r) f)
  end.

(** An environment answers every call and may change its state. *)
Definition handler (S : Type) := forall c : call, S -> reply c * S.

Fixpoint run {S A} (h : handler S) (p : prog A) (s : S) : list event * A * S :=
  match p with
  | Ret a => ([], a, s)
  | Out o k => let '(t, a, s') := run h k s in (Printed o :: t, a, s')
  | Call c k =>
      let '(r, s1) := h c s in
      let '(t, a, s2) := run h (k r) s1 in
      (observe c r :: t, a, s2)
  end.

Definition trace {S A} (h : handler S) (p : prog A) (s : S) : list event :=
  fst (fst (run h p s)).

Definition outcome {S A} (h : handler S) (p : prog A) (s : S) : A :=
  snd (fst (run h p s)).

Definition final {S A} (h : handler S) (p : prog A) (s : S) : S :=
  snd (run h p s).

(** How a statement ends: it completes, it executes [return], or it
    raises. *)
Inductive ctl (A : Type) :=
| Done (a : A)
| Returned
| Raised (e : exn).
Arguments Done {A} a.
Arguments Returned {A}.
Arguments Raised {A} e.

Definition M (A : Type) := prog (ctl A).

Definition ret {A} (a : A) : M A := Ret (Done a).
Definition return_ {A} : M A := Ret Returned.
Definition raise {A} (e : exn) : M A := Ret (Raised e).

Definition bindM {A B} (p : M A) (f : A -> M B) : M B :=
  bind p (fun c =>
    match c with
    | Done a => f a
    | Returned => Ret Returned
    | Raised e => Ret (Raised e)
    end).

(** [try: body except Exception as e: handle e]. *)
Definition try_except {A} (body : M A) (handle : exn -> M A) : M A :=
  bind body (fun c =>
    match c with
    | Raised e => handle e
    | _ => Ret c
    end).

(** [try: body except cls: handle], for the exception class named
    [cls]; any other exception propagates. *)
Definition try_except_class {A} (cls : pystr) (body : M A) (handle : M A) : M A :=
  bind body (fun c =>
    match c with
    | Raised e => if str_eqb (exn_type e) cls then handle else Ret c
    | _ => Ret c
    end).

Definition of_result {A} (r : result A) : ctl A :=
  match r with
  | Ok a => Done a
  | Raise e => Raised e
  end.

(** A built-in that may raise. *)
Definition lift {A} (r : result A) : M A := Ret (of_result r).

Definition print (s : pystr) : M unit := Out (Line s) (Ret (Done tt)).
Definition print_grid (headers : list pystr) (rows : list (list pyval)) : M unit :=
  Out (Grid headers rows) (Ret (Done tt)).
Definition print_exc (e : exn) : M unit := Out (Traceback e) (Ret (Done tt)).

Definition path_exists (p : pystr) : M bool :=
  Call (PathExists p) (fun b => Ret (Done b)).
Definition connect (uri token db_name : pystr) : M unit :=
  Call (Connect uri token db_name) (fun r => Ret (of_result r)).
Definition client_has_collection (name : pystr) : M bool :=
  Call (HasCollection name) (fun r => Ret (of_result r)).
Definition client_list_collections : M (list pystr) :=
  Call ListCollections (fun r => Ret (of_result r)).
Definition client_describe_collection (name : pystr) : M collection_info :=
  Call (DescribeCollection name) (fun r => Ret (of_result r)).
Definition hasattr (attr : pystr) : M bool :=
  Call (HasAttr attr) (fun b => Ret (Done b)).
Definition client_get_collection_stats (name : pystr) : M dict :=
  Call (GetCollectionStats name) (fun r => Ret (of_result r)).
Definition client_query (collection_name filter : pystr) (output_fields : list pystr)
    (limit : Z) (offset : option Z) : M (list dict) :=
  Call (Query collection_name filter output_fields limit offset)
       (fun r => Ret (of_result r)).
Definition client_search (collection_name : pystr) (data : list pyval) (anns_field : pystr)
    (param : dict) (limit : Z) (output_fields : list pystr) : M (list (list dict)) :=
  Call (Search collection_name data anns_field param limit output_fields)
       (fun r => Ret (of_result r)).

(** [for x in xs: body x]. *)
Fixpoint for_each {A} (body : A -> M unit) (xs : list A) : M unit :=
  match xs with
  | [] => ret tt
  | x :: xs' => bindM (body x) (fun _ => for_each body xs')
  end.

(** [for i, x in enumerate(xs): body i x], counting from [i]. *)
Fixpoint for_enumerate {A} (body : Z -> A -> M unit) (i : Z) (xs : list A) : M unit :=
  match xs with
  | [] => ret tt
  | x :: xs' => bindM (body i x) (fun _ => for_enumerate body (i + 1) xs')
  end.

End World.
Import World.

Declare Scope prog_scope.
Delimit Scope prog_scope with prog.
Notation "x <- p ;; q" := (bindM p (fun x => q))
  (at level 61, p at next level, right associativity) : prog_scope.
Notation "p ;; q" := (bindM p (fun _ => q))
  (at level 61, right associativity) : prog_scope.
Open Scope prog_scope.

(* ================================================================= *)
(** ** The tool *)

Module Explorer.

(** The parsed command line (lines 18-55). *)
Record Args := {
  uri : pystr;                    (* --uri, default ./milvus.db *)
  token : pystr;                  (* --token *)
  db : pystr;                     (* --db *)
  collection : option pystr;      (* --collection, default None *)
  limit : Z;                      (* --limit *)
  offset : Z;                     (* --offset *)
  show_vectors : bool;            (* --show_vectors *)
  vector_preview : Z;             (* --vector_preview *)
  search : bool;                  (* --search *)
  search_text : option pystr;     (* --search_text, default None *)
  search_vector : option pystr;   (* --search_vector, default None *)
  search_id : option Z;           (* --search_id, default None *)
  top_k : Z                       (* --top_k *)
}.

(** Truth value of an optional string argument: [None] and the empty
    string are false. *)
Definition given (o : option pystr) : bool :=
  match o with
  | Some (_ :: _) => true
  | _ => false
  end.

(** The string an optional argument holds. *)
Definition arg_str (o : option pystr) : pystr :=
  match o with
  | Some s => s
  | None => []
  end.

Section WithRuntime.
Context {RT : Runtime}.

(** *** Rendering of one record: the blocks shared by the search path
    (lines 143-162) and the paged-read path (lines 261-280). *)

(** Lines 146-147 and 268-269: the text as it is displayed. *)
Definition shorten (text : pyval) : result pyval :=
  match py_len text with
  | Raise e => Raise e
  | Ok n =>
      if (n >? 100)%Z then
        match py_slice_to 97 text with
        | Raise e => Raise e
        | Ok head => py_add_str head (u "...")
        end
      else Ok text
  end.

(** Lines 144-148 and 266-270. *)
Definition show_text (item : dict) : M unit :=
  match lookup (u "text") item with
  | Some text =>
      text <- lift (shorten text) ;;
      print (u "文本: " ++ py_str text)
  | None => ret tt
  end.

(** Lines 151-152 and 273-274. *)
Definition show_reference (item : dict) : M unit :=
  match lookup (u "reference") item with
  | Some reference => print (u "参考: " ++ py_str reference)
  | None => ret tt
  end.

(** Lines 155-158 and 277-280. *)
Definition show_metadata (item : dict) : M unit :=
  match lookup (u "metadata") item with
  | Some metadata =>
      nonempty <- lift (py_truth metadata) ;;
      if nonempty then
        print (u "元数据:") ;;
        items <- lift (py_items metadata) ;;
        for_each (fun kv => print (u "  " ++ fst kv ++ u ": " ++ py_str (snd kv))) items
      else ret tt
  | None => ret tt
  end.

(** Lines 161-162 and 262-263. *)
Definition show_id (item : dict) : M unit :=
  match lookup (u "id") item with
  | Some id => print (u "ID: " ++ py_str id)
  | None => ret tt
  end.

(** *** Search mode *)

(** Lines 140-162: one hit, [i] counted from 0. *)
Definition show_hit (i : Z) (hit : dict) : M unit :=
  score <- lift (py_getitem hit (u "score")) ;;
  score <- lift (format_4f score) ;;
  print (nl ++ u "--- 相似结果 #" ++ str_of_int (i + 1)
            ++ u " (相似度得分: " ++ score ++ u ") ---") ;;
  show_text hit ;;
  show_reference hit ;;
  show_metadata hit ;;
  show_id hit.

(** Lines 134-162: the report of what the search returned. *)
Definition show_hits (search_results : list (list dict)) : M unit :=
  match search_results with
  | [] | [] :: _ => print (u "未找到相似结果") ;; return_
  | hits :: _ =>
      print (nl ++ u "找到 " ++ str_of_int (Z.of_nat (length hits)) ++ u " 个相似结果:") ;;
      for_enumerate show_hit 0 hits
  end.

(** Lines 124-169: the similarity search. *)
Definition do_search (args : Args) (search_vector : pyval) : M unit :=
  try_except
    (search_results <- client_search (arg_str (collection args))
                                     [search_vector]
                                     (u "embedding")
                                     [(u "metric_type", PyStr (u "L2"))]
                                     (top_k args)
                                     [u "text"; u "reference"; u "metadata"] ;;
     show_hits search_results)
    (fun e =>
       print (u "执行向量搜索失败: " ++ exn_str e) ;;
       print_exc e) ;;
  return_.

(** Lines 87-102: the vector of the record whose id is [id]. *)
Definition vector_of_id (args : Args) (id : Z) : M pyval :=
  try_except
    (result <- client_query (arg_str (collection args))
                     (u "id == " ++ str_of_int id)
                     [u "embedding"] 1 None ;;
     match result with
     | first :: _ =>
         match lookup (u "embedding") first with
         | Some search_vector =>
             print (u "使用ID " ++ str_of_int id ++ u " 的向量进行搜索") ;;
             ret search_vector
         | None =>
             print (u "错误: 未找到ID为 " ++ str_of_int id ++ u " 的数据或其没有向量") ;;
             return_
         end
     | [] =>
         print (u "错误: 未找到ID为 " ++ str_of_int id ++ u " 的数据或其没有向量") ;;
         return_
     end)
    (fun e =>
       print (u "获取ID " ++ str_of_int id ++ u " 的向量时出错: " ++ exn_str e) ;;
       return_).

(** Lines 105-113: the vector given on the command line. *)
Definition vector_of_json (text : pystr) : M pyval :=
  try_except_class (u "JSONDecodeError")
    (search_vector <- lift (json_loads text) ;;
     if negb (is_list search_vector) then
       print (u "错误: 搜索向量必须是JSON数组格式") ;;
       return_
     else
       n <- lift (py_len search_vector) ;;
       print (u "使用提供的向量进行搜索 (维度: " ++ str_of_int n ++ u ")") ;;
       ret search_vector)
    (print (u "错误: 搜索向量必须是有效的JSON数组") ;;
     return_).

(** Lines 83-121: where the query vector comes from. *)
Definition resolve_search_vector (args : Args) : M pyval :=
  match search_id args with
  | Some id => vector_of_id args id
  | None =>
      if given (search_vector args) then vector_of_json (arg_str (search_vector args))
      else if given (search_text args) then
        print (u "错误: 文本搜索需要嵌入模型，此功能尚未实现") ;;
        print (u "提示: 请使用 --search_vector 或 --search_id 参数进行搜索") ;;
        return_
      else
        print (u "错误: 必须提供搜索向量 (--search_vector) 或 搜索ID (--search_id) 或 搜索文本 (--search_text)") ;;
        return_
  end.

(** Lines 71-173. *)
Definition search_mode (args : Args) : M unit :=
  if negb (given (collection args)) then
    print (u "错误: 执行搜索时必须指定集合名称 (--collection)") ;;
    return_
  else
    try_except
      (found <- client_has_collection (arg_str (collection args)) ;;
       if negb found then
         print (u "错误: 集合 '" ++ arg_str (collection args) ++ u "' 不存在") ;;
         return_
       else
         search_vector <- resolve_search_vector args ;;
         do_search args search_vector)
      (fun e =>
         print (u "执行搜索操作失败: " ++ exn_str e) ;;
         return_).

(** *** Listing of the collections *)

Definition unknown : pyval := PyStr (u "未知").

(** Lines 189-197: the number of rows, or the sentinel. *)
Definition row_count (collection : pystr) : M pyval :=
  try_except
    (supported <- hasattr (u "get_collection_stats") ;;
     if supported then
       stats <- client_get_collection_stats collection ;;
       match stats, lookup (u "row_count") stats with
       | _ :: _, Some n => ret n
       | _, _ => ret unknown
       end
     else ret unknown)
    (fun _ => ret unknown).

(** Lines 186-201: the row appended for one collection. *)
Definition collection_row (collection : pystr) : M (list pyval) :=
  try_except
    (description <- client_describe_collection collection ;;
     count <- row_count collection ;;
     ret [PyStr collection;
          match info_description description with Some d => d | None => PyStr empty end;
          count])
    (fun e =>
       ret [PyStr collection; PyStr (u "获取信息失败: " ++ exn_str e); unknown]).

(** Lines 184-201: [collection_data] after the loop. *)
Fixpoint collection_rows (collections : list pystr) : M (list (list pyval)) :=
  match collections with
  | [] => ret []
  | collection :: rest =>
      row <- collection_row collection ;;
      rows <- collection_rows rest ;;
      ret (row :: rows)
  end.

(** Lines 176-206. *)
Definition list_mode : M unit :=
  try_except
    (collections <- client_list_collections ;;
     match collections with
     | [] => print (u "当前数据库中没有集合") ;; return_
     | _ :: _ =>
         print (nl ++ u "集合列表:") ;;
         collection_data <- collection_rows collections ;;
         print_grid [u "集合名称"; u "描述"; u "数据量"] collection_data
     end)
    (fun e =>
       print (u "获取集合列表失败: " ++ exn_str e) ;;
       return_).

(** *** Inspection of one collection *)

(** Lines 225-236: [(field_names, output_fields)] as they stand after
    line 236.  With [show_vectors] the two names denote one list
    object, so the appended ["id"] shows in both. *)
Definition select_fields (show_vectors : bool) (fields : list pystr)
  : list pystr * list pystr :=
  if show_vectors then
    let field_names := filter (fun name => negb (str_eqb name (u "id"))) fields in
    let output_fields := field_names in
    if negb (mem (u "id") output_fields)
    then (output_fields ++ [u "id"], output_fields ++ [u "id"])
    else (field_names, output_fields)
  else
    let field_names :=
      filter (fun name => negb (mem name [u "id"; u "embedding"])) fields in
    let output_fields :=
      filter (fun field => mem field field_names)
             [u "text"; u "reference"; u "metadata"] in
    if negb (mem (u "id") output_fields)
    then (field_names, output_fields ++ [u "id"])
    else (field_names, output_fields).

(** Lines 283-292. *)
Definition show_embedding (args : Args) (item : dict) : M unit :=
  match show_vectors args, lookup (u "embedding") item with
  | true, Some embedding =>
      if is_list embedding || is_ndarray embedding then
        dim <- lift (py_len embedding) ;;
        preview <- lift (py_slice_to (vector_preview args) embedding) ;;
        print (u "向量数据 (维度: " ++ str_of_int dim ++ u "):") ;;
        print (u "  前" ++ str_of_int (vector_preview args) ++ u "个元素: "
                  ++ py_str preview) ;;
        norm <- lift (np_linalg_norm embedding) ;;
        norm <- lift (format_4f norm) ;;
        print (u "  范数: " ++ norm)
      else
        print (u "向量数据: " ++ py_str embedding)
  | _, _ => ret tt
  end.

(** Lines 295-297. *)
Definition show_other_fields (field_names : list pystr) (item : dict) : M unit :=
  for_each
    (fun field =>
       if negb (mem field [u "text"; u "reference"; u "metadata"; u "embedding"; u "id"])
       then match lookup field item with
            | Some v => print (field ++ u ": " ++ py_str v)
            | None => ret tt
            end
       else ret tt)
    field_names.

(** Lines 261-297: the fields of one record. *)
Definition show_fields (args : Args) (field_names : list pystr) (item : dict) : M unit :=
  show_id item ;;
  show_text item ;;
  show_reference item ;;
  show_metadata item ;;
  show_embedding args item ;;
  show_other_fields field_names item.

(** Lines 258-297: one record, [i] counted from 0. *)
Definition show_item (args : Args) (field_names : list pystr) (i : Z) (item : dict)
  : M unit :=
  print (nl ++ u "--- 数据 #" ++ str_of_int (offset args + i + 1) ++ u " ---") ;;
  show_fields args field_names item.

(** Lines 251-297: the report of what the read returned. *)
Definition show_results (args : Args) (field_names : list pystr) (results : list dict)
  : M unit :=
  match results with
  | [] =>
      print (u "集合 '" ++ arg_str (collection args) ++ u "' 中没有数据") ;;
      return_
  | _ :: _ =>
      print (nl ++ u "数据 (显示 " ++ str_of_int (offset args + 1) ++ u " - "
                ++ str_of_int (offset args + Z.of_nat (length results))
                ++ u " 条):") ;;
      for_enumerate (show_item args field_names) 0 results
  end.

(** Lines 220-302. *)
Definition show_data (args : Args) (description : collection_info) : M unit :=
  try_except
    (let fields := match info_fields description with Some fs => fs | None => [] end in
     let '(field_names, output_fields) := select_fields (show_vectors args) fields in
     match output_fields with
     | [] => print (u "警告: 集合中没有可显示的字段") ;; return_
     | _ :: _ =>
         results <- client_query (arg_str (collection args)) empty output_fields
                                 (limit args) (Some (offset args)) ;;
         show_results args field_names results
     end)
    (fun e =>
       print (u "查询数据失败: " ++ exn_str e) ;;
       print (u "错误详情: " ++ exn_type e) ;;
       print_exc e).

(** Lines 209-304. *)
Definition show_mode (args : Args) : M unit :=
  try_except
    (found <- client_has_collection (arg_str (collection args)) ;;
     if negb found then
       print (u "集合 '" ++ arg_str (collection args) ++ u "' 不存在") ;;
       return_
     else
       description <- client_describe_collection (arg_str (collection args)) ;;
       print (nl ++ u "集合 '" ++ arg_str (collection args) ++ u "' 信息:") ;;
       print (u "描述: " ++ py_str match info_description description with
                                   | Some d => d
                                   | None => PyStr (u "无")
                                   end) ;;
       show_data args description)
    (fun e => print (u "获取集合信息失败: " ++ exn_str e)).

(** *** [main] (lines 17-304) *)

Definition main (args : Args) : M unit :=
  present <- path_exists (uri args) ;;
  if negb present then
    print (u "错误: 数据库文件 '" ++ uri args ++ u "' 不存在") ;;
    return_
  else
    try_except
      (connect (uri args) (token args) (db args) ;;
       print (u "成功连接到Milvus Lite数据库: " ++ uri args))
      (fun e =>
         print (u "连接Milvus Lite数据库失败: " ++ exn_str e) ;;
         return_) ;;
    if search args then search_mode args
    else if negb (given (collection args)) then list_mode
    else show_mode args.

End WithRuntime.

End Explorer.
Import Explorer.


(* ================================================================= *)
(** ** Notions used in the statements *)

(** A program that only prints leaves the same trace in every
    environment and never changes its state. *)
Inductive silent {A} : prog A -> Prop :=
| silent_Ret a : silent (Ret a)
| silent_Out o k : silent k -> silent (Out o k).

(** What every run that gets past the connection starts with
    (lines 58-65). *)
Definition opening (args : Args) : list event :=
  [EvPathExists (uri args) true;
   EvConnect (uri args) (token args) (db args) (Ok tt);
   Printed (Line (u "成功连接到Milvus Lite数据库: " ++ uri args))].

(** The dispatch at the end of [main] (lines 71, 176, 207). *)
Definition mode {RT : Runtime} (args : Args) : M unit :=
  if search args then search_mode args
  else if negb (given (collection args)) then list_mode
  else show_mode args.

(** Line 120. *)
Definition missing_argument_message : pystr :=
  u "错误: 必须提供搜索向量 (--search_vector) 或 搜索ID (--search_id) 或 搜索文本 (--search_text)".

(** Line 59. *)
Definition file_missing_message (args : Args) : pystr :=
  u "错误: 数据库文件 '" ++ uri args ++ u "' 不存在".

(** The message [msg] is printed and no call to the database client
    comes before it. *)
Definition reported_before_any_client_call (msg : pystr) (t : list event) : Prop :=
  exists before after,
    t = before ++ Printed (Line msg) :: after /\
    filter is_client_call before = [].

(** Lines 83-169, as they run once [has_collection] has answered
    yes: resolution of the query vector and the search, inside the
    outer [try]. *)
Definition resolve_and_search {RT : Runtime} (args : Args) : M unit :=
  try_except
    (search_vector <- resolve_search_vector args ;;
     do_search args search_vector)
    (fun e =>
       print (u "执行搜索操作失败: " ++ exn_str e) ;;
       return_).

(** The search call of lines 125-132 for the query vector [v], with
    its answer. *)
Definition search_event (args : Args) (v : pyval) (r : result (list (list dict))) : event :=
  EvSearch (arg_str (collection args)) [v] (u "embedding")
           [(u "metric_type", PyStr (u "L2"))] (top_k args)
           [u "text"; u "reference"; u "metadata"] r.

(** The lookup of lines 88-93 for the record id [id], with its answer. *)
Definition lookup_event (args : Args) (id : Z) (r : result (list dict)) : event :=
  EvQuery (arg_str (collection args)) (u "id == " ++ str_of_int id)
          [u "embedding"] 1 None r.

(** Lines 116-117. *)
Definition text_search_messages : list event :=
  [Printed (Line (u "错误: 文本搜索需要嵌入模型，此功能尚未实现"));
   Printed (Line (u "提示: 请使用 --search_vector 或 --search_id 参数进行搜索"))].

(** Line 98. *)
Definition id_not_found_message (id : Z) : pystr :=
  u "错误: 未找到ID为 " ++ str_of_int id ++ u " 的数据或其没有向量".

(** Line 96. *)
Definition using_id_message (id : Z) : pystr :=
  u "使用ID " ++ str_of_int id ++ u " 的向量进行搜索".

(** The command line with its search inputs replaced. *)
Definition with_search_inputs (id : option Z) (vector text : option pystr) (args : Args)
  : Args :=
  {| uri := uri args; token := token args; db := db args;
     collection := collection args; limit := limit args; offset := offset args;
     show_vectors := show_vectors args; vector_preview := vector_preview args;
     search := search args;
     search_text := text; search_vector := vector; search_id := id;
     top_k := top_k args |}.

(** The specification's order of the three search inputs: a record id
    comes before an explicit vector, which comes before a text; inputs
    after the first one supplied are dropped. *)
Definition prioritised (args : Args) : Args :=
  match search_id args with
  | Some id => with_search_inputs (Some id) None None args
  | None =>
      if given (search_vector args)
      then with_search_inputs None (search_vector args) None args
      else args
  end.

(** The query vector [v] was resolved in the run whose events after
    the collection check are [rest]: found under ["embedding"] in the
    first record the lookup by id returned, or parsed as a JSON array
    from the command line. *)
Definition resolved {RT : Runtime} (args : Args) (rest : list event) (v : pyval) : Prop :=
  (exists id first others tail,
      search_id args = Some id /\
      rest = lookup_event args id (Ok (first :: others)) :: tail /\
      lookup (u "embedding") first = Some v)
  \/ (exists l,
      search_id args = None /\
      given (search_vector args) = true /\
      json_loads (arg_str (search_vector args)) = Ok (PyList l) /\
      v = PyList l).

(** Line 203: the headers of the table. *)
Definition listing_headers : list pystr := [u "集合名称"; u "描述"; u "数据量"].

(** Line 199: the description, or the empty string when there is none. *)
Definition description_or_empty (info : collection_info) : pyval :=
  match info_description info with
  | Some d => d
  | None => PyStr empty
  end.

(** Lines 194-195: the count read from the statistics. *)
Definition count_of (stats : dict) : pyval :=
  match stats, lookup (u "row_count") stats with
  | _ :: _, Some n => n
  | _, _ => unknown
  end.

(** One turn of the loop of lines 185-201 for [collection]: the events
    it leaves and the row it appends. *)
Definition row_step (collection : pystr) (seg : list event) (row : list pyval) : Prop :=
  (exists e,
      seg = [EvDescribeCollection collection (Raise e)] /\
      row = [PyStr collection; PyStr (u "获取信息失败: " ++ exn_str e); unknown])
  \/ (exists info,
      seg = [EvDescribeCollection collection (Ok info);
             EvHasAttr (u "get_collection_stats") false] /\
      row = [PyStr collection; description_or_empty info; unknown])
  \/ (exists info e,
      seg = [EvDescribeCollection collection (Ok info);
             EvHasAttr (u "get_collection_stats") true;
             EvGetCollectionStats collection (Raise e)] /\
      row = [PyStr collection; description_or_empty info; unknown])
  \/ (exists info stats,
      seg = [EvDescribeCollection collection (Ok info);
             EvHasAttr (u "get_collection_stats") true;
             EvGetCollectionStats collection (Ok stats)] /\
      row = [PyStr collection; description_or_empty info; count_of stats]).

(** The first cell of a row. *)
Definition row_name (row : list pyval) : pyval := hd PyNone row.

(** Line 222: [description.get("fields", [])]. *)
Definition fields_of (info : collection_info) : list pystr :=
  match info_fields info with
  | Some fs => fs
  | None => []
  end.

(** What a run that inspects a collection starts with, once the
    collection exists and is described by [info] (lines 58-65 and
    210-217). *)
Definition inspection_prefix {RT : Runtime} (args : Args) (info : collection_info)
  : list event :=
  opening args ++
  [EvHasCollection (arg_str (collection args)) (Ok true);
   EvDescribeCollection (arg_str (collection args)) (Ok info);
   Printed (Line (nl ++ u "集合 '" ++ arg_str (collection args) ++ u "' 信息:"));
   Printed (Line (u "描述: " ++ py_str match info_description info with
                                      | Some d => d
                                      | None => PyStr (u "无")
                                      end))].

(** The read of lines 243-249 with its answer. *)
Definition read_event (args : Args) (output_fields : list pystr) (r : result (list dict))
  : event :=
  EvQuery (arg_str (collection args)) empty output_fields
          (limit args) (Some (offset args)) r.

(** The output fields as the specification describes them for vector
    display: every schema field except the id field, and nothing else. *)
Definition all_but_id (fields output_fields : list pystr) : Prop :=
  forall f, In f output_fields <-> (In f fields /\ f <> u "id").

(** What a program prints before its first call, and what it returns
    if it makes no call at all. *)
Fixpoint lines {A} (p : prog A) : list event :=
  match p with
  | Ret _ => []
  | Out o k => Printed o :: lines k
  | Call _ _ => []
  end.

Fixpoint value {A} (p : prog A) : option A :=
  match p with
  | Ret a => Some a
  | Out _ k => value k
  | Call _ _ => None
  end.

(** The text of a record as the specification displays it: unchanged
    up to 100 characters, else the first 97 and three dots. *)
Definition displayed (text : pystr) : pystr :=
  if (length text <=? 100)%nat then text else firstn 97 text ++ u "...".

(** Line 259: the header of the record at position [i] (from 0). *)
Definition record_header (args : Args) (i : nat) : event :=
  Printed (Line (nl ++ u "--- 数据 #" ++ str_of_int (offset args + Z.of_nat i + 1)
                    ++ u " ---")).

(** Line 255. *)
Definition range_line (args : Args) (n : nat) : event :=
  Printed (Line (nl ++ u "数据 (显示 " ++ str_of_int (offset args + 1) ++ u " - "
                    ++ str_of_int (offset args + Z.of_nat n) ++ u " 条):")).

(** The number of records whose display is begun: all of them, or
    those up to and including the first whose fields raise. *)
Fixpoint begun {RT : Runtime} (args : Args) (field_names : list pystr) (items : list dict)
  : nat :=
  match items with
  | [] => 0
  | item :: items' =>
      match value (show_fields args field_names item) with
      | Some (Done _) => S (begun args field_names items')
      | _ => 1
      end
  end.

(** The first exception raised while the records are displayed. *)
Fixpoint first_failure {RT : Runtime} (args : Args) (field_names : list pystr)
    (items : list dict) : option exn :=
  match items with
  | [] => None
  | item :: items' =>
      match value (show_fields args field_names item) with
      | Some (Done _) => first_failure args field_names items'
      | Some (Raised e) => Some e
      | _ => None
      end
  end.

(** Lines 299-302: what the handler of the read prints for [e]. *)
Definition read_failure_report (e : exn) : list event :=
  [Printed (Line (u "查询数据失败: " ++ exn_str e));
   Printed (Line (u "错误详情: " ++ exn_type e));
   Printed (Traceback e)].

(** A statement that only prints and then completes or raises: it
    makes no call and executes no [return]. *)
Inductive straight {A} : M A -> Prop :=
| straight_done a : straight (Ret (Done a))
| straight_raised e : straight (Ret (Raised e))
| straight_out o k : straight k -> straight (Out o k).

(** A program from which no exception escapes: every way through it
    ends by completing or by [return]. *)
Inductive contained {A} : M A -> Prop :=
| contained_done a : contained (Ret (Done a))
| contained_returned : contained (Ret Returned)
| contained_out o k : contained k -> contained (Out o k)
| contained_call c k : (forall r, contained (k r)) -> contained (Call c k).

(** A program all of whose calls satisfy [P]. *)
Inductive calls_within {A} (P : call -> Prop) : prog A -> Prop :=
| within_ret a : calls_within P (Ret a)
| within_out o k : calls_within P k -> calls_within P (Out o k)
| within_call c k :
    P c -> (forall r, calls_within P (k r)) -> calls_within P (Call c k).

(** A program that makes at most one call of the kind [Q] on every
    way through it. *)
Inductive at_most_once {A} (Q : call -> bool) : prog A -> Prop :=
| once_ret a : at_most_once Q (Ret a)
| once_out o k : at_most_once Q k -> at_most_once Q (Out o k)
| once_hit c k :
    Q c = true ->
    (forall r, calls_within (fun c' => Q c' = false) (k r)) ->
    at_most_once Q (Call c k)
| once_miss c k :
    Q c = false ->
    (forall r, at_most_once Q (k r)) ->
    at_most_once Q (Call c k).

(** The call an event records, if it is one. *)
Definition event_call (e : event) : option call :=
  match e with
  | Printed _ => None
  | EvPathExists p _ => Some (PathExists p)
  | EvConnect a b d _ => Some (Connect a b d)
  | EvHasCollection n _ => Some (HasCollection n)
  | EvListCollections _ => Some ListCollections
  | EvDescribeCollection n _ => Some (DescribeCollection n)
  | EvHasAttr a _ => Some (HasAttr a)
  | EvGetCollectionStats n _ => Some (GetCollectionStats n)
  | EvQuery c f o l off _ => Some (Query c f o l off)
  | EvSearch c d a p l o _ => Some (Search c d a p l o)
  end.

(** The events of a trace that record a call of the kind [Q]. *)
Definition calls_of (Q : call -> bool) (t : list event) : list event :=
  filter (fun e => match event_call e with Some c => Q c | None => false end) t.

Definition is_connect_call (c : call) : bool :=
  match c with Connect _ _ _ => true | _ => false end.
Definition is_has_collection_call (c : call) : bool :=
  match c with HasCollection _ => true | _ => false end.
Definition is_list_call (c : call) : bool :=
  match c with ListCollections => true | _ => false end.
Definition is_query_call (c : call) : bool :=
  match c with Query _ _ _ _ _ => true | _ => false end.
Definition is_search_call (c : call) : bool :=
  match c with Search _ _ _ _ _ _ => true | _ => false end.

(** The calls [main] can make for a given command line, with the
    arguments it passes (lines 58, 64, 78, 88-93, 125-132, 178, 187,
    192-193, 210, 215, 243-249). *)
Definition permitted (args : Args) (c : call) : Prop :=
  match c with
  | PathExists p => p = uri args
  | Connect a b d => a = uri args /\ b = token args /\ d = db args
  | HasCollection n =>
      given (collection args) = true /\ n = arg_str (collection args)
  | ListCollections =>
      search args = false /\ given (collection args) = false
  | DescribeCollection n =>
      search args = false /\
      (given (collection args) = true -> n = arg_str (collection args))
  | HasAttr a =>
      search args = false /\ given (collection args) = false /\
      a = u "get_collection_stats"
  | GetCollectionStats _ =>
      search args = false /\ given (collection args) = false
  | Query n f o l off =>
      given (collection args) = true /\ n = arg_str (collection args) /\
      ((exists id, search args = true /\ search_id args = Some id /\
                   f = u "id == " ++ str_of_int id /\
                   o = [u "embedding"] /\ l = 1%Z /\ off = None)
       \/ (search args = false /\ f = empty /\ In (u "id") o /\
           l = limit args /\ off = Some (offset args)))
  | Search n d a p l o =>
      search args = true /\ given (collection args) = true /\
      n = arg_str (collection args) /\ length d = 1 /\
      a = u "embedding" /\ p = [(u "metric_type", PyStr (u "L2"))] /\
      l = top_k args /\ o = [u "text"; u "reference"; u "metadata"]
  end.

(** Line 110. *)
Definition dimension_message (n : nat) : pystr :=
  u "使用提供的向量进行搜索 (维度: " ++ str_of_int (Z.of_nat n) ++ u ")".

(** Lines 165-167: what the handler of the search prints for [e]. *)
Definition search_failure_report (e : exn) : list event :=
  [Printed (Line (u "执行向量搜索失败: " ++ exn_str e)); Printed (Traceback e)].

(** Line 138. *)
Definition found_line (n : nat) : event :=
  Printed (Line (nl ++ u "找到 " ++ str_of_int (Z.of_nat n) ++ u " 个相似结果:")).

(** Line 141: the header of the hit at position [i] (from 0) with its
    formatted score. *)
Definition hit_header (i : nat) (score : pystr) : event :=
  Printed (Line (nl ++ u "--- 相似结果 #" ++ str_of_int (Z.of_nat i + 1)
                    ++ u " (相似度得分: " ++ score ++ u ") ---")).

(** Lines 143-162: the fields of one hit. *)
Definition hit_fields {RT : Runtime} (hit : dict) : M unit :=
  show_text hit ;; show_reference hit ;; show_metadata hit ;; show_id hit.

(** Values without a length: [len] raises on them. *)
Definition scalar (v : pyval) : bool :=
  match v with
  | PyNone | PyBool _ | PyInt _ | PyFloat _ => true
  | _ => false
  end.

(** Lines 158 and 280: the line of one metadata entry. *)
Definition metadata_line {RT : Runtime} (entry : pystr * pyval) : event :=
  Printed (Line (u "  " ++ fst entry ++ u ": " ++ py_str (snd entry))).

(* ================================================================= *)
(** ** Concrete environments, for examples *)

Module Demo.

(** A runtime whose library functions are trivial but typed like the
    real ones; [json_loads] knows the one document of the examples. *)
Definition runtime : Runtime := {|
  json_loads := fun s =>
    if str_eqb s (u "[0.1, 0.2, 0.3]")
    then Ok (PyList [PyFloat (Float64 4591870180066957722);
                     PyFloat (Float64 4596373779694328218);
                     PyFloat (Float64 4599075939470750515)])
    else Raise (Exn (u "JSONDecodeError") (u "Expecting value"));
  format_4f := fun v =>
    match v with
    | PyInt z => Ok (str_of_int z ++ u ".0000")
    | _ => Raise (Exn (u "TypeError") (u "unsupported format string"))
    end;
  np_linalg_norm := fun _ => Ok (PyInt 1);
  py_repr := fun _ => u "<value>";
  raise_of := fun f =>
    match f with
    | MissingKey k => Exn (u "KeyError") k
    | NoItems _ => Exn (u "AttributeError") (u "items")
    | AmbiguousTruth _ => Exn (u "ValueError") (u "ambiguous truth value")
    | _ => Exn (u "TypeError") (u "bad operand")
    end
|}.

(** A database described by what each call answers. *)
Record database := {
  db_file_exists : bool;
  db_connect : result unit;
  db_has_collection : pystr -> result bool;
  db_collections : result (list pystr);
  db_describe : pystr -> result collection_info;
  db_has_stats : bool;
  db_stats : pystr -> result dict;
  db_query : pystr -> pystr -> list pystr -> Z -> option Z -> result (list dict);
  db_search : pystr -> list pyval -> Z -> result (list (list dict))
}.

Definition serve (d : database) : handler unit :=
  fun c s =>
    (match c as c' return reply c' with
     | PathExists _ => db_file_exists d
     | Connect _ _ _ => db_connect d
     | HasCollection n => db_has_collection d n
     | ListCollections => db_collections d
     | DescribeCollection n => db_describe d n
     | HasAttr _ => db_has_stats d
     | GetCollectionStats n => db_stats d n
     | Query c f o l off => db_query d c f o l off
     | Search c v _ _ l _ => db_search d c v l
     end, s).

Definition docs_info : collection_info := {|
  info_description := Some (PyStr (u "documents"));
  info_fields := Some [u "id"; u "text"; u "embedding"; u "source"]
|}.

Definition doc1 : dict :=
  [(u "id", PyInt 7); (u "text", PyStr (u "hello")); (u "embedding", PyList [PyInt 1; PyInt 2])].

(** A healthy database with one collection, [docs]. *)
Definition docs_db : database := {|
  db_file_exists := true;
  db_connect := Ok tt;
  db_has_collection := fun n => Ok (str_eqb n (u "docs"));
  db_collections := Ok [u "docs"];
  db_describe := fun _ => Ok docs_info;
  db_has_stats := true;
  db_stats := fun _ => Ok [(u "row_count", PyInt 1)];
  db_query := fun _ _ _ _ _ => Ok [doc1];
  db_search := fun _ _ _ => Ok [[(u "score", PyInt 0) :: doc1]]
|}.

(** The command line with every option at its default (lines 19-53). *)
Definition defaults : Args := {|
  uri := u "./milvus.db";
  token := u "root:Milvus";
  db := u "default";
  collection := None;
  limit := 10;
  offset := 0;
  show_vectors := false;
  vector_preview := 5;
  search := false;
  search_text := None;
  search_vector := None;
  search_id := None;
  top_k := 5
|}.

End Demo.

Module Cases.
Import Demo.

(** [--search --collection docs] and nothing else. *)
Definition search_without_inputs : Args :=
  {| uri := u "./milvus.db"; token := u "root:Milvus"; db := u "default";
     collection := Some (u "docs"); limit := 10; offset := 0;
     show_vectors := false; vector_preview := 5; search := true;
     search_text := None; search_vector := None; search_id := None; top_k := 5 |}.

(** [--search --collection docs --search_text hello]. *)
Definition search_by_text : Args :=
  with_search_inputs None None (Some (u "hello")) search_without_inputs.

(** [--search --collection docs --search_id 7 --search_vector "[0.1, 0.2, 0.3]"
    --search_text hello]. *)
Definition search_by_everything : Args :=
  with_search_inputs (Some 7%Z) (Some (u "[0.1, 0.2, 0.3]")) (Some (u "hello"))
    search_without_inputs.

(** [--search_vector "[0.1, 0.2, 0.3]" --collection docs --top_k 3 --search]. *)
Definition search_by_vector : Args :=
  {| uri := u "./milvus.db"; token := u "root:Milvus"; db := u "default";
     collection := Some (u "docs"); limit := 10; offset := 0;
     show_vectors := false; vector_preview := 5; search := true;
     search_text := None; search_vector := Some (u "[0.1, 0.2, 0.3]");
     search_id := None; top_k := 3 |}.

(** [--search --collection docs --search_id 7]. *)
Definition search_by_id : Args :=
  with_search_inputs (Some 7%Z) None None search_without_inputs.

(** A database in which no record has the id asked for. *)
Definition empty_docs_db : database :=
  {| db_file_exists := true; db_connect := Ok tt;
     db_has_collection := db_has_collection docs_db;
     db_collections := db_collections docs_db;
     db_describe := db_describe docs_db;
     db_has_stats := true;
     db_stats := db_stats docs_db;
     db_query := fun _ _ _ _ _ => Ok [];
     db_search := db_search docs_db |}.

(** A database whose file is not there. *)
Definition absent_db : database :=
  {| db_file_exists := false; db_connect := db_connect docs_db;
     db_has_collection := db_has_collection docs_db;
     db_collections := db_collections docs_db;
     db_describe := db_describe docs_db;
     db_has_stats := true;
     db_stats := db_stats docs_db;
     db_query := db_query docs_db;
     db_search := db_search docs_db |}.

End Cases.

Module Failures.
Import Demo.

Definition unavailable : exn := Exn (u "MilvusException") (u "unavailable").

(** Three collections; the statistics of [notes] cannot be read. *)
Definition flaky_stats_db : database :=
  {| db_file_exists := true; db_connect := Ok tt;
     db_has_collection := fun _ => Ok true;
     db_collections := Ok [u "docs"; u "notes"; u "logs"];
     db_describe := fun _ => Ok docs_info;
     db_has_stats := true;
     db_stats := fun n =>
       if str_eqb n (u "notes") then Raise unavailable
       else Ok [(u "row_count", PyInt 1)];
     db_query := db_query docs_db;
     db_search := db_search docs_db |}.

(** Three collections; [notes] cannot be described. *)
Definition flaky_describe_db : database :=
  {| db_file_exists := true; db_connect := Ok tt;
     db_has_collection := fun _ => Ok true;
     db_collections := Ok [u "docs"; u "notes"; u "logs"];
     db_describe := fun n =>
       if str_eqb n (u "notes") then Raise unavailable else Ok docs_info;
     db_has_stats := true;
     db_stats := fun _ => Ok [(u "row_count", PyInt 1)];
     db_query := db_query docs_db;
     db_search := db_search docs_db |}.

End Failures.

Module Inspection.
Import Demo.

(** [--collection docs --show_vectors]. *)
Definition inspect_with_vectors : Args :=
  {| uri := u "./milvus.db"; token := u "root:Milvus"; db := u "default";
     collection := Some (u "docs"); limit := 10; offset := 0;
     show_vectors := true; vector_preview := 5; search := false;
     search_text := None; search_vector := None; search_id := None; top_k := 5 |}.

(** [--collection docs --offset 20 --limit 2]. *)
Definition inspect_page : Args :=
  {| uri := u "./milvus.db"; token := u "root:Milvus"; db := u "default";
     collection := Some (u "docs"); limit := 2; offset := 20;
     show_vectors := false; vector_preview := 5; search := false;
     search_text := None; search_vector := None; search_id := None; top_k := 5 |}.

Definition doc2 : dict := [(u "id", PyInt 8); (u "text", PyStr (u "world"))].

(** A database whose reads return two records. *)
Definition two_docs_db : database :=
  {| db_file_exists := true; db_connect := Ok tt;
     db_has_collection := db_has_collection docs_db;
     db_collections := db_collections docs_db;
     db_describe := db_describe docs_db;
     db_has_stats := true;
     db_stats := db_stats docs_db;
     db_query := fun _ _ _ _ _ => Ok [doc1; doc2];
     db_search := db_search docs_db |}.

End Inspection.

Module Paths.
Import Demo.

Definition refused : exn := Exn (u "MilvusException") (u "refused").

(** A database file that exists but cannot be opened. *)
Definition locked_db : database :=
  {| db_file_exists := true; db_connect := Raise refused;
     db_has_collection := db_has_collection docs_db;
     db_collections := db_collections docs_db;
     db_describe := db_describe docs_db;
     db_has_stats := true;
     db_stats := db_stats docs_db;
     db_query := db_query docs_db;
     db_search := db_search docs_db |}.

(** A database without collections. *)
Definition blank_db : database :=
  {| db_file_exists := true; db_connect := Ok tt;
     db_has_collection := fun _ => Ok false;
     db_collections := Ok [];
     db_describe := db_describe docs_db;
     db_has_stats := true;
     db_stats := db_stats docs_db;
     db_query := db_query docs_db;
     db_search := db_search docs_db |}.

(** A database whose reads and searches fail. *)
Definition failing_db : database :=
  {| db_file_exists := true; db_connect := Ok tt;
     db_has_collection := db_has_collection docs_db;
     db_collections := db_collections docs_db;
     db_describe := db_describe docs_db;
     db_has_stats := true;
     db_stats := db_stats docs_db;
     db_query := fun _ _ _ _ _ => Raise refused;
     db_search := fun _ _ _ => Raise refused |}.

(** [--search --search_id 7], without a collection. *)
Definition search_nowhere : Args :=
  {| uri := u "./milvus.db"; token := u "root:Milvus"; db := u "default";
     collection := None; limit := 10; offset := 0;
     show_vectors := false; vector_preview := 5; search := true;
     search_text := None; search_vector := None; search_id := Some 7%Z; top_k := 5 |}.

(** [--search --collection docs --search_vector "{}"]. *)
Definition search_by_object : Args :=
  with_search_inputs None (Some (u "{}")) None Cases.search_without_inputs.

(** [--collection docs]. *)
Definition inspect_docs : Args :=
  {| uri := u "./milvus.db"; token := u "root:Milvus"; db := u "default";
     collection := Some (u "docs"); limit := 10; offset := 0;
     show_vectors := false; vector_preview := 5; search := false;
     search_text := None; search_vector := None; search_id := None; top_k := 5 |}.

End Paths.

Module Hits.

Definition first_hit : dict :=
  [(u "score", PyInt 0); (u "text", PyStr (u "hello")); (u "id", PyInt 7)].

Definition second_hit : dict :=
  [(u "score", PyInt 2); (u "reference", PyStr (u "a.txt"))].

End Hits.

Module Records.

Definition tagged : dict :=
  [(u "id", PyInt 3);
   (u "metadata", PyDict [(u "lang", PyStr (u "en")); (u "page", PyInt 12)])].

Definition untexted : dict := [(u "id", PyInt 4); (u "text", PyNone)].

Definition embedded : dict :=
  [(u "embedding", PyList [PyInt 3; PyInt 4; PyInt 0])].

(** [--collection docs --show_vectors --vector_preview 2]. *)
Definition preview_two : Args :=
  {| uri := u "./milvus.db"; token := u "root:Milvus"; db := u "default";
     collection := Some (u "docs"); limit := 10; offset := 0;
     show_vectors := true; vector_preview := 2; search := false;
     search_text := None; search_vector := None; search_id := None; top_k := 5 |}.

End Records.

(* ================================================================= *)
(** ** Running programs: general facts *)

Section RunFacts.
Context {S : Type} (h : handler S).

Lemma run_bind {A B} (p : prog A) (f : A -> prog B) (s : S) :
  run h (bind p f) s =
  let '(t1, a, s1) := run h p s in
  let '(t2, b, s2) := run h (f a) s1 in
  (t1 ++ t2, b, s2).
Proof.
  revert s; induction p as [a | o k IH | c k IH]; intros s; simpl.
  - destruct (run h (f a) s) as [[t2 b] s2]; reflexivity.
  - rewrite IH. destruct (run h k s) as [[t1 a] s1].
    destruct (run h (f a) s1) as [[t2 b] s2]; reflexivity.
  - destruct (h c s) as [r s1]. rewrite IH.
    destruct (run h (k r) s1) as [[t1 a] s2].
    destruct (run h (f a) s2) as [[t2 b] s3]; reflexivity.
Qed.

Lemma run_bindM {A B} (p : M A) (f : A -> M B) (s : S) :
  run h (bindM p f) s =
  let '(t1, c, s1) := run h p s in
  match c with
  | Done a => let '(t2, b, s2) := run h (f a) s1 in (t1 ++ t2, b, s2)
  | Returned => (t1, Returned, s1)
  | Raised e => (t1, Raised e, s1)
  end.
Proof.
  unfold bindM. rewrite run_bind.
  destruct (run h p s) as [[t1 c] s1].
  destruct c; simpl; rewrite ?app_nil_r; reflexivity.
Qed.

Lemma run_try_except {A} (p : M A) (f : exn -> M A) (s : S) :
  run h (try_except p f) s =
  let '(t1, c, s1) := run h p s in
  match c with
  | Raised e => let '(t2, b, s2) := run h (f e) s1 in (t1 ++ t2, b, s2)
  | _ => (t1, c, s1)
  end.
Proof.
  unfold try_except. rewrite run_bind.
  destruct (run h p s) as [[t1 c] s1].
  destruct c; simpl; rewrite ?app_nil_r; reflexivity.
Qed.

End RunFacts.

Lemma silent_bind {A B} (p : prog A) (f : A -> prog B) :
  silent p -> (forall a, silent (f a)) -> silent (bind p f).
Proof.
  induction 1; simpl; auto. constructor; auto.
Qed.

Lemma silent_bindM {A B} (p : M A) (f : A -> M B) :
  silent p -> (forall a, silent (f a)) -> silent (bindM p f).
Proof.
  intros Hp Hf. apply silent_bind; auto.
  intros [a | | e]; auto; constructor.
Qed.

Lemma silent_try_except {A} (p : M A) (f : exn -> M A) :
  silent p -> (forall e, silent (f e)) -> silent (try_except p f).
Proof.
  intros Hp Hf. apply silent_bind; auto.
  intros [a | | e]; auto; constructor.
Qed.

Lemma silent_print s : silent (print s).
Proof. repeat constructor. Qed.

Lemma silent_lift {A} (r : result A) : silent (lift r).
Proof. constructor. Qed.

Lemma silent_ret {A} (a : A) : silent (ret a).
Proof. constructor. Qed.

Lemma silent_for_each {A} (body : A -> M unit) xs :
  (forall x, silent (body x)) -> silent (for_each body xs).
Proof.
  intros Hb. induction xs; simpl.
  - constructor.
  - apply silent_bindM; auto.
Qed.

Lemma silent_for_enumerate {A} (body : Z -> A -> M unit) xs :
  (forall i x, silent (body i x)) -> forall i, silent (for_enumerate body i xs).
Proof.
  intros Hb. induction xs; simpl; intros i.
  - constructor.
  - apply silent_bindM; auto.
Qed.

Lemma silent_run {S A} (h : handler S) (p : prog A) (s : S) :
  silent p ->
  final h p s = s /\ forallb is_printed (trace h p s) = true.
Proof.
  unfold final, trace.
  induction 1; simpl; auto.
  destruct (run h k s) as [[t a] s']; simpl in *. tauto.
Qed.

Lemma printed_not_search t :
  forallb is_printed t = true -> filter is_search t = [].
Proof.
  induction t as [| e t IH]; simpl; auto.
  destruct e; simpl; try discriminate; auto.
Qed.

Lemma printed_not_query t :
  forallb is_printed t = true -> filter is_query t = [].
Proof.
  induction t as [| e t IH]; simpl; auto.
  destruct e; simpl; try discriminate; auto.
Qed.

Lemma printed_not_client t :
  forallb is_printed t = true -> filter is_client_call t = [].
Proof.
  induction t as [| e t IH]; simpl; auto.
  destruct e; simpl; try discriminate; auto.
Qed.

(* ================================================================= *)
(** ** Properties of the tool *)

Opaque u str_of_int nl.

(** *** The start of [main] *)

Lemma main_cases {RT : Runtime} (args : Args) (S : Type) (h : handler S) (s : S) :
  trace h (main args) s =
    [EvPathExists (uri args) false; Printed (Line (file_missing_message args))]
  \/ (exists e, trace h (main args) s =
        [EvPathExists (uri args) true;
         EvConnect (uri args) (token args) (db args) (Raise e);
         Printed (Line (u "连接Milvus Lite数据库失败: " ++ exn_str e))])
  \/ (exists s', trace h (main args) s = opening args ++ trace h (mode args) s').
Proof.
  unfold trace, main, mode. simpl.
  destruct (h (PathExists (uri args)) s) as [r s1]. destruct r; simpl.
  - right.
    destruct (h (Connect (uri args) (token args) (db args)) s1) as [r s2].
    destruct r as [[] | e]; simpl.
    + right. exists s2.
      destruct (run h _ s2) as [[t a] s3]. reflexivity.
    + left. exists e. reflexivity.
  - left. reflexivity.
Qed.

Lemma main_connected {RT : Runtime} (args : Args) (S : Type) (h : handler S) (s : S) rest :
  trace h (main args) s = opening args ++ rest ->
  exists s', rest = trace h (mode args) s'.
Proof.
  intros H.
  destruct (main_cases args h s) as [E | [[e E] | [s' E]]]; rewrite E in H.
  - discriminate.
  - discriminate.
  - exists s'. apply app_inv_head in H. congruence.
Qed.

(** C5.  When the database file does not exist, the run consists of
    the existence test and one message saying so; the tool returns
    without attempting a connection. *)
Theorem missing_file_stops_before_connecting
  {RT : Runtime} (args : Args) (S : Type) (h : handler S) (s : S) :
  fst (h (PathExists (uri args)) s) = false ->
  trace h (main args) s =
    [EvPathExists (uri args) false; Printed (Line (file_missing_message args))]
  /\ filter is_connect (trace h (main args) s) = []
  /\ length (filter is_printed (trace h (main args) s)) = 1
  /\ outcome h (main args) s = Returned.
Proof.
  intros H. unfold trace, outcome, main. simpl.
  destruct (h (PathExists (uri args)) s) as [r s1]. simpl in H. subst r.
  simpl. repeat split.
Qed.

Lemma missing_file_witness :
  fst (Demo.serve Cases.absent_db (PathExists (uri Demo.defaults)) tt) = false /\
  trace (Demo.serve Cases.absent_db) (@main Demo.runtime Demo.defaults) tt =
    [EvPathExists (u "./milvus.db") false;
     Printed (Line (u "错误: 数据库文件 './milvus.db' 不存在"))].
Proof.
  split.
  - reflexivity.
  - destruct (@missing_file_stops_before_connecting Demo.runtime Demo.defaults unit
                (Demo.serve Cases.absent_db) tt eq_refl) as [E _].
    rewrite E. vm_compute. reflexivity.
Defined.

(** *** Programs that only print *)

Create HintDb quiet.

Ltac quiet :=
  repeat first
    [ solve [auto with quiet nocore]
    | apply silent_print | apply silent_lift | apply silent_ret
    | apply silent_bindM | apply silent_try_except
    | apply silent_for_each | apply silent_for_enumerate
    | apply silent_Ret | apply silent_Out
    | intro
    | match goal with
      | |- silent (match ?x with _ => _ end) => destruct x
      end ].

Section Quiet.
Context {RT : Runtime}.

Lemma silent_show_text item : silent (show_text item).
Proof. unfold show_text. quiet. Qed.
#[local] Hint Resolve silent_show_text : quiet.

Lemma silent_show_reference item : silent (show_reference item).
Proof. unfold show_reference. quiet. Qed.
#[local] Hint Resolve silent_show_reference : quiet.

Lemma silent_show_metadata item : silent (show_metadata item).
Proof. unfold show_metadata. quiet. Qed.
#[local] Hint Resolve silent_show_metadata : quiet.

Lemma silent_show_id item : silent (show_id item).
Proof. unfold show_id. quiet. Qed.
#[local] Hint Resolve silent_show_id : quiet.

Lemma silent_show_hit i hit : silent (show_hit i hit).
Proof. unfold show_hit. quiet. Qed.
#[local] Hint Resolve silent_show_hit : quiet.

Lemma silent_show_hits r : silent (show_hits r).
Proof. unfold show_hits. quiet. Qed.
#[local] Hint Resolve silent_show_hits : quiet.

Lemma silent_show_embedding args item : silent (show_embedding args item).
Proof. unfold show_embedding. quiet. Qed.
#[local] Hint Resolve silent_show_embedding : quiet.

Lemma silent_show_other_fields names item : silent (show_other_fields names item).
Proof. unfold show_other_fields. quiet. Qed.
#[local] Hint Resolve silent_show_other_fields : quiet.

Lemma silent_show_fields args names item : silent (show_fields args names item).
Proof. unfold show_fields. quiet. Qed.
#[local] Hint Resolve silent_show_fields : quiet.

Lemma silent_show_item args names i item : silent (show_item args names i item).
Proof. unfold show_item. quiet. Qed.
#[local] Hint Resolve silent_show_item : quiet.

Lemma silent_show_results args names results : silent (show_results args names results).
Proof. unfold show_results. quiet. Qed.
#[local] Hint Resolve silent_show_results : quiet.

End Quiet.

(** *** Search mode *)

Section SearchMode.
Context {RT : Runtime} {S : Type} (h : handler S).

Lemma search_mode_cases (args : Args) (s : S) :
  given (collection args) = true ->
  (exists e, trace h (search_mode args) s =
     [EvHasCollection (arg_str (collection args)) (Raise e);
      Printed (Line (u "执行搜索操作失败: " ++ exn_str e))])
  \/ trace h (search_mode args) s =
       [EvHasCollection (arg_str (collection args)) (Ok false);
        Printed (Line (u "错误: 集合 '" ++ arg_str (collection args) ++ u "' 不存在"))]
  \/ (exists s', trace h (search_mode args) s =
        EvHasCollection (arg_str (collection args)) (Ok true)
          :: trace h (resolve_and_search args) s').
Proof.
  intros Hc. unfold trace, search_mode. rewrite Hc. simpl.
  destruct (h (HasCollection (arg_str (collection args))) s) as [r s1].
  destruct r as [[|] | e]; simpl.
  - right; right. exists s1. unfold resolve_and_search, try_except, bindM.
    destruct (run h _ s1) as [[t a] s2]. reflexivity.
  - right; left. reflexivity.
  - left. exists e. reflexivity.
Qed.

(** The search itself: one call, then only printing. *)
Lemma do_search_trace (args : Args) (v : pyval) (s : S) :
  exists r rest,
    trace h (do_search args v) s = search_event args v r :: rest /\
    forallb is_printed rest = true /\
    outcome h (do_search args v) s = Returned.
Proof.
  unfold trace, outcome, do_search, search_event.
  rewrite run_bindM, run_try_except. unfold client_search at 1.
  rewrite run_bindM. simpl.
  destruct (h _ s) as [r s1]. exists r.
  destruct r as [results | e]; simpl.
  - pose proof (silent_run h s1 (silent_show_hits results)) as [_ Hp].
    unfold trace in Hp.
    destruct (run h (show_hits results) s1) as [[t c] s2]. simpl in Hp.
    destruct c as [[] | | e]; simpl; eexists; (split; [reflexivity |]);
      rewrite ?app_nil_r, ?forallb_app, ?Hp; auto.
  - eexists. split; [reflexivity |]. auto.
Qed.

End SearchMode.

Section Resolution.
Context {RT : Runtime} {S : Type} (h : handler S).

Lemma run_after_do_search (args : Args) (v : pyval) (f : ctl unit -> M unit) (s : S) :
  f Returned = Ret Returned ->
  run h (bind (do_search args v) f) s = run h (do_search args v) s.
Proof.
  intros Hf. rewrite run_bind.
  destruct (do_search_trace h args v s) as (r & rest & _ & _ & Ho).
  unfold outcome in Ho.
  destruct (run h (do_search args v) s) as [[t c] s']. simpl in Ho. subst c.
  rewrite Hf. simpl. rewrite app_nil_r. reflexivity.
Qed.

Opaque do_search.

(** Lines 86-102. *)
Lemma resolve_by_id (args : Args) (id : Z) (s : S) :
  search_id args = Some id ->
  exists r s',
    trace h (resolve_and_search args) s =
      lookup_event args id r ::
      match r with
      | Ok (first :: _) =>
          match lookup (u "embedding") first with
          | Some v =>
              Printed (Line (u "使用ID " ++ str_of_int id ++ u " 的向量进行搜索"))
                :: trace h (do_search args v) s'
          | None =>
              [Printed (Line (u "错误: 未找到ID为 " ++ str_of_int id
                                ++ u " 的数据或其没有向量"))]
          end
      | Ok [] =>
          [Printed (Line (u "错误: 未找到ID为 " ++ str_of_int id
                            ++ u " 的数据或其没有向量"))]
      | Raise e =>
          [Printed (Line (u "获取ID " ++ str_of_int id ++ u " 的向量时出错: "
                            ++ exn_str e))]
      end.
Proof.
  intros Hid. unfold trace, resolve_and_search, resolve_search_vector, lookup_event.
  rewrite Hid. simpl.
  destruct (h _ s) as [r s1]. exists r, s1.
  destruct r as [[| first others] | e]; simpl; try reflexivity.
  destruct (lookup (u "embedding") first) as [v |]; simpl; try reflexivity.
  rewrite run_after_do_search by reflexivity.
  destruct (run h (do_search args v) s1) as [[t c] s2]. reflexivity.
Qed.

(** Lines 104-113. *)
Lemma resolve_by_vector (args : Args) (s : S) :
  search_id args = None ->
  given (search_vector args) = true ->
  trace h (resolve_and_search args) s =
    match json_loads (arg_str (search_vector args)) with
    | Ok (PyList l) =>
        Printed (Line (u "使用提供的向量进行搜索 (维度: "
                          ++ str_of_int (Z.of_nat (length l)) ++ u ")"))
          :: trace h (do_search args (PyList l)) s
    | Ok _ => [Printed (Line (u "错误: 搜索向量必须是JSON数组格式"))]
    | Raise e =>
        if str_eqb (exn_type e) (u "JSONDecodeError")
        then [Printed (Line (u "错误: 搜索向量必须是有效的JSON数组"))]
        else [Printed (Line (u "执行搜索操作失败: " ++ exn_str e))]
    end.
Proof.
  intros Hid Hv. unfold trace, resolve_and_search, resolve_search_vector.
  rewrite Hid, Hv. unfold vector_of_json. simpl.
  destruct (json_loads (arg_str (search_vector args))) as [v | e]; simpl.
  - destruct v; simpl; try reflexivity.
    rewrite run_after_do_search by reflexivity.
    destruct (run h (do_search args (PyList l)) s) as [[t c] s2]. reflexivity.
  - unfold try_except, try_except_class, bindM, lift. simpl.
    destruct (str_eqb (exn_type e) (u "JSONDecodeError")); reflexivity.
Qed.

(** Lines 115-118. *)
Lemma resolve_by_text (args : Args) (s : S) :
  search_id args = None ->
  given (search_vector args) = false ->
  given (search_text args) = true ->
  trace h (resolve_and_search args) s =
    [Printed (Line (u "错误: 文本搜索需要嵌入模型，此功能尚未实现"));
     Printed (Line (u "提示: 请使用 --search_vector 或 --search_id 参数进行搜索"))].
Proof.
  intros Hid Hv Ht. unfold trace, resolve_and_search, resolve_search_vector.
  rewrite Hid, Hv, Ht. reflexivity.
Qed.

(** Lines 119-121. *)
Lemma resolve_nothing (args : Args) (s : S) :
  search_id args = None ->
  given (search_vector args) = false ->
  given (search_text args) = false ->
  trace h (resolve_and_search args) s = [Printed (Line missing_argument_message)].
Proof.
  intros Hid Hv Ht. unfold trace, resolve_and_search, resolve_search_vector.
  rewrite Hid, Hv, Ht. reflexivity.
Qed.

Transparent do_search.

End Resolution.

(** *** What search mode does *)

Lemma search_reaches_resolution {RT : Runtime} (args : Args) (S : Type) (h : handler S)
    (s : S) rest :
  search args = true ->
  given (collection args) = true ->
  trace h (main args) s
    = opening args ++ EvHasCollection (arg_str (collection args)) (Ok true) :: rest ->
  exists s', rest = trace h (resolve_and_search args) s'.
Proof.
  intros Hs Hc H.
  apply main_connected in H as [s1 H]. unfold mode in H. rewrite Hs in H.
  destruct (search_mode_cases h args s1 Hc) as [[e E] | [E | [s2 E]]];
    rewrite E in H; try discriminate.
  exists s2. congruence.
Qed.

Lemma search_mode_never_reads {RT : Runtime} (args : Args) (S : Type) (h : handler S)
    (s : S) :
  search args = true ->
  given (collection args) = true ->
  (exists s', trace h (main args) s
      = opening args ++ EvHasCollection (arg_str (collection args)) (Ok true)
          :: trace h (resolve_and_search args) s')
  \/ (filter is_query (trace h (main args) s) = [] /\
      filter is_search (trace h (main args) s) = []).
Proof.
  intros Hs Hc.
  destruct (main_cases args h s) as [E | [[e E] | [s1 E]]]; rewrite E.
  - right. split; reflexivity.
  - right. split; reflexivity.
  - unfold mode. rewrite Hs.
    destruct (search_mode_cases h args s1 Hc) as [[e E'] | [E' | [s2 E']]]; rewrite E'.
    + right. split; reflexivity.
    + right. split; reflexivity.
    + left. exists s2. reflexivity.
Qed.

(** C1 (as amended).  A search with a collection name but without id,
    vector and text never gets to a query or a search.  It reports the
    missing argument once the file is there, the connection is open
    and [has_collection] has answered yes: these two client calls come
    before the message.  When one of these steps fails, that failure
    is what it reports. *)
Theorem missing_search_argument_reported
  {RT : Runtime} (args : Args) (S : Type) (h : handler S) (s : S) :
  search args = true ->
  given (collection args) = true ->
  search_id args = None ->
  given (search_vector args) = false ->
  given (search_text args) = false ->
  trace h (main args) s =
    [EvPathExists (uri args) false; Printed (Line (file_missing_message args))]
  \/ (exists e, trace h (main args) s =
        [EvPathExists (uri args) true;
         EvConnect (uri args) (token args) (db args) (Raise e);
         Printed (Line (u "连接Milvus Lite数据库失败: " ++ exn_str e))])
  \/ (exists e, trace h (main args) s =
        opening args ++
        [EvHasCollection (arg_str (collection args)) (Raise e);
         Printed (Line (u "执行搜索操作失败: " ++ exn_str e))])
  \/ trace h (main args) s =
       opening args ++
       [EvHasCollection (arg_str (collection args)) (Ok false);
        Printed (Line (u "错误: 集合 '" ++ arg_str (collection args) ++ u "' 不存在"))]
  \/ trace h (main args) s =
       opening args ++
       [EvHasCollection (arg_str (collection args)) (Ok true);
        Printed (Line missing_argument_message)].
Proof.
  intros Hs Hc Hid Hv Ht.
  destruct (main_cases args h s) as [E | [[e E] | [s1 E]]]; rewrite E; auto.
  - right; left. eauto.
  - unfold mode. rewrite Hs.
    destruct (search_mode_cases h args s1 Hc) as [[e E'] | [E' | [s2 E']]]; rewrite E'.
    + right; right; left. eauto.
    + right; right; right; left. reflexivity.
    + right; right; right; right.
      rewrite (resolve_nothing h args s2 Hid Hv Ht). reflexivity.
Qed.

Lemma missing_search_argument_witness :
  (search Cases.search_without_inputs = true /\
   given (collection Cases.search_without_inputs) = true /\
   search_id Cases.search_without_inputs = None /\
   given (search_vector Cases.search_without_inputs) = false /\
   given (search_text Cases.search_without_inputs) = false) /\
  trace (Demo.serve Demo.docs_db) (@main Demo.runtime Cases.search_without_inputs) tt =
    opening Cases.search_without_inputs ++
    [EvHasCollection (u "docs") (Ok true); Printed (Line missing_argument_message)].
Proof.
  split.
  - repeat split.
  - destruct (@missing_search_argument_reported Demo.runtime Cases.search_without_inputs
                unit (Demo.serve Demo.docs_db) tt eq_refl eq_refl eq_refl eq_refl eq_refl)
      as [E | [[e E] | [[e E] | [E | E]]]];
      try (vm_compute in E; discriminate E).
    exact E.
Defined.

(** C1 (as stated) fails: with the file in place and the collection
    present, the connection and [has_collection] both come before the
    missing-argument message. *)
Lemma missing_search_argument_counterexample :
  trace (Demo.serve Demo.docs_db) (@main Demo.runtime Cases.search_without_inputs) tt =
    [EvPathExists (u "./milvus.db") true;
     EvConnect (u "./milvus.db") (u "root:Milvus") (u "default") (Ok tt);
     Printed (Line (u "成功连接到Milvus Lite数据库: ./milvus.db"));
     EvHasCollection (u "docs") (Ok true);
     Printed (Line missing_argument_message)]
  /\ ~ reported_before_any_client_call missing_argument_message
         (trace (Demo.serve Demo.docs_db) (@main Demo.runtime Cases.search_without_inputs) tt).
Proof.
  split.
  - vm_compute. reflexivity.
  - intros (before & after & E & F). vm_compute in E.
    destruct before as [| e1 before]; [discriminate E |].
    injection E as <- E.
    destruct before as [| e2 before]; [discriminate E |].
    injection E as <- E.
    destruct before as [| e3 before]; [discriminate E |].
    injection E as <- E.
    destruct before as [| e4 before]; [discriminate E |].
    injection E as <- E.
    discriminate F.
Qed.

Lemma main_prioritised {RT : Runtime} (args : Args) :
  main (prioritised args) = main args.
Proof.
  destruct args as [u0 t0 d0 c0 l0 o0 sv0 vp0 s0 st0 v0 id0 k0].
  unfold prioritised; simpl.
  destruct id0 as [id |]; [reflexivity |].
  destruct v0 as [[| ch v] |]; reflexivity.
Qed.

(** C3.  The search inputs are used in the order id, vector, text:
    the run is the same as with every input after the first supplied
    one dropped; with an id the lookup of that record is what follows
    the collection check, whatever vector and text say.  A search by
    text alone never issues a search (nor a query): once the
    collection check has passed it prints the not-implemented message
    and the hint to use a vector or an id, and stops. *)
Theorem resolution_priority {RT : Runtime} (args : Args) (S : Type) (h : handler S) (s : S) :
  run h (main args) s = run h (main (prioritised args)) s
  /\ (forall id rest,
        search args = true ->
        given (collection args) = true ->
        search_id args = Some id ->
        trace h (main args) s
          = opening args ++ EvHasCollection (arg_str (collection args)) (Ok true) :: rest ->
        exists r tail, rest = lookup_event args id r :: tail)
  /\ (search args = true ->
      given (collection args) = true ->
      search_id args = None ->
      given (search_vector args) = false ->
      given (search_text args) = true ->
      filter is_search (trace h (main args) s) = []
      /\ filter is_query (trace h (main args) s) = []
      /\ forall rest,
           trace h (main args) s
             = opening args ++ EvHasCollection (arg_str (collection args)) (Ok true) :: rest ->
           rest = text_search_messages).
Proof.
  split; [| split].
  - rewrite main_prioritised. reflexivity.
  - intros id rest Hs Hc Hid H.
    apply search_reaches_resolution in H as [s' ->]; auto.
    destruct (resolve_by_id h args s' Hid) as (r & s'' & E).
    rewrite E. eauto.
  - intros Hs Hc Hid Hv Ht.
    assert (R : forall s', trace h (resolve_and_search args) s' = text_search_messages)
      by (intros s'; apply resolve_by_text; assumption).
    destruct (search_mode_never_reads args h s Hs Hc) as [[s' E] | [E1 E2]].
    + rewrite E, R. repeat split.
      intros rest H. apply app_inv_head in H. congruence.
    + repeat split; auto.
      intros rest H. rewrite H in E1.
      apply search_reaches_resolution in H as [s' ->]; auto.
Qed.

Lemma resolution_priority_witness :
  (search Cases.search_by_text = true /\
   given (collection Cases.search_by_text) = true /\
   search_id Cases.search_by_text = None /\
   given (search_vector Cases.search_by_text) = false /\
   given (search_text Cases.search_by_text) = true) /\
  filter is_search
    (trace (Demo.serve Demo.docs_db) (@main Demo.runtime Cases.search_by_text) tt) = [] /\
  trace (Demo.serve Demo.docs_db) (@main Demo.runtime Cases.search_by_text) tt
    = opening Cases.search_by_text
        ++ EvHasCollection (u "docs") (Ok true) :: text_search_messages /\
  (search_id Cases.search_by_everything = Some 7%Z /\
   run (Demo.serve Demo.docs_db) (@main Demo.runtime Cases.search_by_everything) tt
     = run (Demo.serve Demo.docs_db) (@main Demo.runtime Cases.search_by_id) tt).
Proof.
  destruct (@resolution_priority Demo.runtime Cases.search_by_text unit
              (Demo.serve Demo.docs_db) tt) as (_ & _ & T).
  destruct (T eq_refl eq_refl eq_refl eq_refl eq_refl) as (N & _ & R).
  split; [repeat split |]. split; [exact N |]. split.
  - vm_compute. reflexivity.
  - split; [reflexivity |].
    exact (proj1 (@resolution_priority Demo.runtime Cases.search_by_everything unit
                    (Demo.serve Demo.docs_db) tt)).
Defined.

(** C6.  Once the query vector is resolved (from the record found by
    id, or from the JSON array on the command line), the run contains
    exactly one search call: on the collection named, with that one
    vector as data, on the field ["embedding"], with metric L2, with
    limit [top_k] and with output fields text, reference, metadata. *)
Theorem search_issued_once
  {RT : Runtime} (args : Args) (S : Type) (h : handler S) (s : S) rest v :
  search args = true ->
  given (collection args) = true ->
  trace h (main args) s
    = opening args ++ EvHasCollection (arg_str (collection args)) (Ok true) :: rest ->
  resolved args rest v ->
  exists r,
    filter is_search (trace h (main args) s) =
      [EvSearch (arg_str (collection args)) [v] (u "embedding")
                [(u "metric_type", PyStr (u "L2"))] (top_k args)
                [u "text"; u "reference"; u "metadata"] r].
Proof.
  intros Hs Hc H Hr. rewrite H.
  apply search_reaches_resolution in H as [s' H]; auto.
  destruct Hr as [(id & first & others & tail & Hid & Hrest & Hv) | (l & Hid & Hg & Hj & ->)].
  - destruct (resolve_by_id h args s' Hid) as (r0 & s'' & E).
    rewrite <- H, Hrest in E. injection E as E1 E2. subst r0.
    rewrite Hv in E2.
    destruct (do_search_trace h args v s'') as (r & more & Et & Hp & _).
    exists r. rewrite Hrest, E2, Et.
    unfold opening, lookup_event, search_event. simpl.
    rewrite (printed_not_search _ Hp). reflexivity.
  - rewrite (resolve_by_vector h args s' Hid Hg), Hj in H.
    destruct (do_search_trace h args (PyList l) s') as (r & more & Et & Hp & _).
    exists r. rewrite H, Et.
    unfold opening, search_event. simpl.
    rewrite (printed_not_search _ Hp). reflexivity.
Qed.

Lemma search_issued_once_witness :
  search Cases.search_by_vector = true /\
  given (collection Cases.search_by_vector) = true /\
  filter is_search
    (trace (Demo.serve Demo.docs_db) (@main Demo.runtime Cases.search_by_vector) tt) =
    [EvSearch (u "docs")
       [PyList [PyFloat (Float64 4591870180066957722);
                PyFloat (Float64 4596373779694328218);
                PyFloat (Float64 4599075939470750515)]]
       (u "embedding") [(u "metric_type", PyStr (u "L2"))] 3
       [u "text"; u "reference"; u "metadata"]
       (Ok [[(u "score", PyInt 0) :: Demo.doc1]])].
Proof.
  split; [reflexivity |]. split; [reflexivity |].
  destruct (@search_issued_once Demo.runtime Cases.search_by_vector unit
              (Demo.serve Demo.docs_db) tt
              (skipn 4 (trace (Demo.serve Demo.docs_db)
                          (@main Demo.runtime Cases.search_by_vector) tt))
              (PyList [PyFloat (Float64 4591870180066957722);
                       PyFloat (Float64 4596373779694328218);
                       PyFloat (Float64 4599075939470750515)])
              eq_refl eq_refl) as [r E].
  - vm_compute. reflexivity.
  - right. eexists. repeat split.
  - rewrite E. vm_compute in E. injection E as E. rewrite <- E. vm_compute. reflexivity.
Defined.

(** C7.  A search by record id first queries the collection with the
    filter [id == <id>], asking for the field ["embedding"] of at most
    one record.  When the first record returned has an ["embedding"]
    entry, that value becomes the query vector of the search call that
    follows.  When no record comes back, or the record has no such
    entry, or the lookup raises, one message is printed and the run
    ends without a search call. *)
Theorem search_by_record_id
  {RT : Runtime} (args : Args) (S : Type) (h : handler S) (s : S) id rest :
  search args = true ->
  given (collection args) = true ->
  search_id args = Some id ->
  trace h (main args) s
    = opening args ++ EvHasCollection (arg_str (collection args)) (Ok true) :: rest ->
  exists r tail,
    rest = EvQuery (arg_str (collection args)) (u "id == " ++ str_of_int id)
                   [u "embedding"] 1 None r :: tail
    /\ match r with
       | Ok (first :: _) =>
           match lookup (u "embedding") first with
           | Some v =>
               exists r' tail',
                 tail = Printed (Line (using_id_message id))
                          :: search_event args v r' :: tail'
                 /\ forallb is_printed tail' = true
           | None =>
               tail = [Printed (Line (id_not_found_message id))]
               /\ filter is_search (trace h (main args) s) = []
           end
       | Ok [] =>
           tail = [Printed (Line (id_not_found_message id))]
           /\ filter is_search (trace h (main args) s) = []
       | Raise e =>
           tail = [Printed (Line (u "获取ID " ++ str_of_int id ++ u " 的向量时出错: "
                                    ++ exn_str e))]
           /\ filter is_search (trace h (main args) s) = []
       end.
Proof.
  intros Hs Hc Hid H. rewrite H.
  apply search_reaches_resolution in H as [s' ->]; auto.
  destruct (resolve_by_id h args s' Hid) as (r & s'' & E).
  rewrite E. exists r. eexists. split; [reflexivity |].
  destruct r as [[| first others] | e].
  - split; reflexivity.
  - destruct (lookup (u "embedding") first) as [v |].
    + destruct (do_search_trace h args v s'') as (r' & more & Et & Hp & _).
      exists r', more. rewrite Et. auto.
    + split; reflexivity.
  - split; reflexivity.
Qed.

Lemma search_by_record_id_witness :
  search Cases.search_by_id = true /\
  given (collection Cases.search_by_id) = true /\
  search_id Cases.search_by_id = Some 7%Z /\
  trace (Demo.serve Cases.empty_docs_db) (@main Demo.runtime Cases.search_by_id) tt
    = opening Cases.search_by_id ++
      [EvHasCollection (u "docs") (Ok true);
       EvQuery (u "docs") (u "id == 7") [u "embedding"] 1 None (Ok []);
       Printed (Line (u "错误: 未找到ID为 7 的数据或其没有向量"))] /\
  filter is_search
    (trace (Demo.serve Cases.empty_docs_db) (@main Demo.runtime Cases.search_by_id) tt) = [].
Proof.
  split; [reflexivity |]. split; [reflexivity |]. split; [reflexivity |].
  split; [vm_compute; reflexivity |].
  destruct (@search_by_record_id Demo.runtime Cases.search_by_id unit
              (Demo.serve Cases.empty_docs_db) tt 7%Z
              [EvQuery (u "docs") (u "id == 7") [u "embedding"] 1 None (Ok []);
               Printed (Line (u "错误: 未找到ID为 7 的数据或其没有向量"))]
              eq_refl eq_refl eq_refl) as (r & tail & E & F).
  - vm_compute. reflexivity.
  - vm_compute in E. injection E as <- <-. exact (proj2 F).
Defined.

(** *** Listing of the collections *)

Section Listing.
Context {RT : Runtime} {S : Type} (h : handler S).

Opaque lookup.

Lemma collection_row_run (c : pystr) (s : S) :
  exists seg row s',
    run h (collection_row c) s = (seg, Done row, s') /\ row_step c seg row.
Proof.
  unfold collection_row, row_step. simpl.
  destruct (h (DescribeCollection c) s) as [r s1].
  destruct r as [info | e]; simpl.
  - destruct (h (HasAttr (u "get_collection_stats")) s1) as [b s2].
    destruct b; simpl.
    + destruct (h (GetCollectionStats c) s2) as [r s3].
      destruct r as [stats | e]; simpl.
      * do 3 eexists. split.
        2:{ right; right; right. exists info, stats. split; reflexivity. }
        unfold count_of.
        destruct stats as [| kv stats]; [reflexivity |].
        destruct (lookup (u "row_count") (kv :: stats)); reflexivity.
      * do 3 eexists. split; [reflexivity |].
        right; right; left. eauto.
    + do 3 eexists. split; [reflexivity |].
      right; left. eauto.
  - do 3 eexists. split; [reflexivity |]. left. eauto.
Qed.

Transparent lookup.
Opaque collection_row.

Lemma row_step_name c seg row : row_step c seg row -> row_name row = PyStr c.
Proof.
  intros [(e & _ & ->) | [(i & _ & ->) | [(i & e & _ & ->) | (i & st & _ & ->)]]];
    reflexivity.
Qed.

Lemma collection_rows_run (cs : list pystr) (s : S) :
  exists t rows s',
    run h (collection_rows cs) s = (t, Done rows, s') /\
    map row_name rows = map PyStr cs.
Proof.
  revert s. induction cs as [| c cs IH]; intros s.
  - exists [], [], s. split; reflexivity.
  - destruct (collection_row_run c s) as (seg & row & s1 & E1 & Hstep).
    destruct (IH s1) as (t & rows & s2 & E2 & Hn).
    exists (seg ++ t), (row :: rows), s2. split.
    + cbn [collection_rows]. rewrite run_bindM, E1, run_bindM, E2. simpl.
      rewrite app_nil_r. reflexivity.
    + simpl. rewrite Hn, (row_step_name Hstep). reflexivity.
Qed.

Lemma collection_rows_split (before : list pystr) (c : pystr) (after : list pystr) (s : S) :
  exists s1 s2 rows1 row rows2,
    outcome h (collection_rows before) s = Done rows1 /\
    outcome h (collection_row c) s1 = Done row /\
    outcome h (collection_rows after) s2 = Done rows2 /\
    run h (collection_rows (before ++ c :: after)) s =
      (trace h (collection_rows before) s ++ trace h (collection_row c) s1
         ++ trace h (collection_rows after) s2,
       Done (rows1 ++ row :: rows2),
       final h (collection_rows after) s2).
Proof.
  revert s. induction before as [| b before IH]; intros s.
  - destruct (collection_row_run c s) as (seg & row & s1 & E1 & _).
    destruct (collection_rows_run after s1) as (t & rows & s2 & E2 & _).
    exists s, s1, [], row, rows. unfold outcome, trace, final.
    rewrite E1, E2. simpl. repeat split.
    rewrite run_bindM, E1, run_bindM, E2. simpl.
    rewrite app_nil_r. reflexivity.
  - destruct (collection_row_run b s) as (seg & row0 & s0 & E0 & _).
    destruct (IH s0) as (s1 & s2 & rows1 & row & rows2 & O1 & O2 & O3 & E).
    exists s1, s2, (row0 :: rows1), row, rows2.
    unfold outcome, trace, final in *. simpl app.
    cbn [collection_rows]. rewrite !run_bindM, E0. cbn iota beta.
    rewrite !run_bindM, E. cbn iota beta.
    destruct (run h (collection_rows before) s0) as [[t1 c1] s1']. simpl in O1. subst c1.
    simpl. rewrite !app_nil_r, <- !app_assoc. repeat split; auto.
Qed.

Transparent collection_row.

End Listing.

Section ListMode.
Context {RT : Runtime} {S : Type} (h : handler S).

Opaque collection_rows.

Lemma list_mode_trace (s : S) :
  exists r s',
    trace h list_mode s =
      EvListCollections r ::
      match r with
      | Ok [] => [Printed (Line (u "当前数据库中没有集合"))]
      | Ok cs =>
          Printed (Line (nl ++ u "集合列表:"))
            :: trace h (collection_rows cs) s'
            ++ match outcome h (collection_rows cs) s' with
               | Done rows => [Printed (Grid listing_headers rows)]
               | _ => []
               end
      | Raise e => [Printed (Line (u "获取集合列表失败: " ++ exn_str e))]
      end.
Proof.
  unfold trace, outcome, list_mode. simpl.
  destruct (h ListCollections s) as [r s1]. exists r, s1.
  destruct r as [[| c cs] | e]; try reflexivity.
  simpl. rewrite run_bind, run_bindM.
  destruct (collection_rows_run h (c :: cs) s1) as (t & rows & s2 & E & _).
  rewrite E. simpl. rewrite app_nil_r. reflexivity.
Qed.

Transparent collection_rows.

End ListMode.

Lemma listing_reached {RT : Runtime} (args : Args) (S : Type) (h : handler S) (s : S)
    (cs : list pystr) rest :
  search args = false ->
  given (collection args) = false ->
  cs <> [] ->
  trace h (main args) s = opening args ++ EvListCollections (Ok cs) :: rest ->
  exists s' rows,
    outcome h (collection_rows cs) s' = Done rows /\
    rest = Printed (Line (nl ++ u "集合列表:"))
             :: trace h (collection_rows cs) s'
             ++ [Printed (Grid listing_headers rows)].
Proof.
  intros Hs Hc Hne H.
  apply main_connected in H as [s1 H]. unfold mode in H. rewrite Hs, Hc in H.
  simpl in H.
  destruct (list_mode_trace h s1) as (r & s2 & E). rewrite E in H.
  injection H as <- H. destruct cs as [| c cs]; [congruence |].
  destruct (collection_rows_run h (c :: cs) s2) as (t & rows & s3 & E' & _).
  exists s2, rows. unfold outcome, trace in *. rewrite E' in *. auto.
Qed.

Lemma listing_rows {RT : Runtime} (args : Args) (S : Type) (h : handler S) (s : S)
    (before : list pystr) (c : pystr) (after : list pystr) rest :
  search args = false ->
  given (collection args) = false ->
  trace h (main args) s
    = opening args ++ EvListCollections (Ok (before ++ c :: after)) :: rest ->
  exists s1 s2 s3 rows1 row rows2,
    outcome h (collection_rows before) s1 = Done rows1 /\
    outcome h (collection_row c) s2 = Done row /\
    outcome h (collection_rows after) s3 = Done rows2 /\
    rest = Printed (Line (nl ++ u "集合列表:"))
             :: trace h (collection_rows before) s1
             ++ trace h (collection_row c) s2
             ++ trace h (collection_rows after) s3
             ++ [Printed (Grid listing_headers (rows1 ++ row :: rows2))] /\
    map row_name (rows1 ++ row :: rows2) = map PyStr (before ++ c :: after) /\
    row_step c (trace h (collection_row c) s2) row.
Proof.
  intros Hs Hc H.
  apply listing_reached in H as (s1 & rows & Ho & ->); auto.
  2:{ destruct before; discriminate. }
  destruct (collection_rows_split h before c after s1)
    as (s2 & s3 & rows1 & row & rows2 & O1 & O2 & O3 & E).
  destruct (collection_rows_run h (before ++ c :: after) s1) as (t & rows' & s4 & E' & Hn).
  unfold outcome, trace in *. rewrite E in Ho, E'. cbn [fst snd] in Ho.
  injection Ho as <-. injection E' as _ <- _.
  exists s1, s2, s3, rows1, row, rows2. rewrite E. cbn [fst snd].
  rewrite <- !app_assoc. repeat split; auto.
  destruct (collection_row_run h c s2) as (seg & row' & s5 & E2 & Hstep).
  rewrite E2 in O2 |- *. cbn [fst snd] in O2 |- *. injection O2 as <-. exact Hstep.
Qed.

(** C8.  While the collections are listed, a failure to read the row
    count of one collection is swallowed: the row of that collection
    keeps its name and description and shows the sentinel for
    "unknown" as count, and the table printed at the end has one row
    for each collection, in order, those before and after it
    included. *)
Theorem row_count_failure_is_swallowed
  {RT : Runtime} (args : Args) (S : Type) (h : handler S) (s : S)
  (before : list pystr) (c : pystr) (after : list pystr) rest :
  search args = false ->
  given (collection args) = false ->
  trace h (main args) s
    = opening args ++ EvListCollections (Ok (before ++ c :: after)) :: rest ->
  exists s1 s2 s3 rows1 row rows2,
    outcome h (collection_rows before) s1 = Done rows1 /\
    outcome h (collection_row c) s2 = Done row /\
    outcome h (collection_rows after) s3 = Done rows2 /\
    rest = Printed (Line (nl ++ u "集合列表:"))
             :: trace h (collection_rows before) s1
             ++ trace h (collection_row c) s2
             ++ trace h (collection_rows after) s3
             ++ [Printed (Grid listing_headers (rows1 ++ row :: rows2))] /\
    map row_name (rows1 ++ row :: rows2) = map PyStr (before ++ c :: after) /\
    forall e,
      In (EvGetCollectionStats c (Raise e)) (trace h (collection_row c) s2) ->
      exists info,
        In (EvDescribeCollection c (Ok info)) (trace h (collection_row c) s2) /\
        row = [PyStr c; description_or_empty info; PyStr (u "未知")].
Proof.
  intros Hs Hc H.
  destruct (@listing_rows RT args S h s before c after rest Hs Hc H)
    as (s1 & s2 & s3 & rows1 & row & rows2 & O1 & O2 & O3 & E & Hn & Hstep).
  exists s1, s2, s3, rows1, row, rows2.
  do 5 (split; [assumption |]).
  intros e Hin.
  destruct Hstep as [(e' & Eseg & _) | [(i & Eseg & _)
                    | [(i & e' & Eseg & Erow) | (i & st & Eseg & _)]]];
    rewrite Eseg in *; simpl in Hin.
  - destruct Hin as [Hin | []]; discriminate.
  - destruct Hin as [Hin | [Hin | []]]; discriminate.
  - exists i. split; [simpl; auto | exact Erow].
  - destruct Hin as [Hin | [Hin | [Hin | []]]]; discriminate.
Qed.

Lemma row_count_failure_witness :
  search Demo.defaults = false /\
  given (collection Demo.defaults) = false /\
  trace (Demo.serve Failures.flaky_stats_db) (@main Demo.runtime Demo.defaults) tt =
    opening Demo.defaults ++
    [EvListCollections (Ok ([u "docs"] ++ u "notes" :: [u "logs"]));
     Printed (Line (nl ++ u "集合列表:"));
     EvDescribeCollection (u "docs") (Ok Demo.docs_info);
     EvHasAttr (u "get_collection_stats") true;
     EvGetCollectionStats (u "docs") (Ok [(u "row_count", PyInt 1)]);
     EvDescribeCollection (u "notes") (Ok Demo.docs_info);
     EvHasAttr (u "get_collection_stats") true;
     EvGetCollectionStats (u "notes") (Raise Failures.unavailable);
     EvDescribeCollection (u "logs") (Ok Demo.docs_info);
     EvHasAttr (u "get_collection_stats") true;
     EvGetCollectionStats (u "logs") (Ok [(u "row_count", PyInt 1)]);
     Printed (Grid listing_headers
                [[PyStr (u "docs"); PyStr (u "documents"); PyInt 1];
                 [PyStr (u "notes"); PyStr (u "documents"); PyStr (u "未知")];
                 [PyStr (u "logs"); PyStr (u "documents"); PyInt 1]])] /\
  exists row,
    outcome (Demo.serve Failures.flaky_stats_db) (collection_row (u "notes")) tt
      = Done row /\
    row = [PyStr (u "notes"); PyStr (u "documents"); PyStr (u "未知")].
Proof.
  split; [reflexivity |]. split; [reflexivity |].
  assert (T : trace (Demo.serve Failures.flaky_stats_db) (@main Demo.runtime Demo.defaults) tt
              = opening Demo.defaults
                ++ EvListCollections (Ok ([u "docs"] ++ u "notes" :: [u "logs"]))
                :: skipn 4 (trace (Demo.serve Failures.flaky_stats_db)
                              (@main Demo.runtime Demo.defaults) tt))
    by (vm_compute; reflexivity).
  split; [vm_compute; reflexivity |].
  destruct (@row_count_failure_is_swallowed Demo.runtime Demo.defaults unit
              (Demo.serve Failures.flaky_stats_db) tt [u "docs"] (u "notes") [u "logs"]
              _ eq_refl eq_refl T)
    as ([] & [] & [] & rows1 & row & rows2 & _ & O2 & _ & _ & _ & F).
  exists row. split; [exact O2 |].
  destruct (F Failures.unavailable) as (info & Hin & ->).
  - vm_compute. auto.
  - vm_compute in Hin. destruct Hin as [Hin | [Hin | [Hin | []]]]; try discriminate Hin.
    injection Hin as <-. vm_compute. reflexivity.
Defined.

(** C10.  While the collections are listed, a failure of
    [describe_collection] for one collection still gives that
    collection a row: its name, the failure text as description and
    the sentinel for "unknown" as count.  Nothing else is asked about
    that collection, and the table printed at the end has one row for
    each collection, in order, those before and after it included. *)
Theorem describe_failure_keeps_row
  {RT : Runtime} (args : Args) (S : Type) (h : handler S) (s : S)
  (before : list pystr) (c : pystr) (after : list pystr) rest :
  search args = false ->
  given (collection args) = false ->
  trace h (main args) s
    = opening args ++ EvListCollections (Ok (before ++ c :: after)) :: rest ->
  exists s1 s2 s3 rows1 row rows2,
    outcome h (collection_rows before) s1 = Done rows1 /\
    outcome h (collection_row c) s2 = Done row /\
    outcome h (collection_rows after) s3 = Done rows2 /\
    rest = Printed (Line (nl ++ u "集合列表:"))
             :: trace h (collection_rows before) s1
             ++ trace h (collection_row c) s2
             ++ trace h (collection_rows after) s3
             ++ [Printed (Grid listing_headers (rows1 ++ row :: rows2))] /\
    map row_name (rows1 ++ row :: rows2) = map PyStr (before ++ c :: after) /\
    forall e,
      In (EvDescribeCollection c (Raise e)) (trace h (collection_row c) s2) ->
      trace h (collection_row c) s2 = [EvDescribeCollection c (Raise e)] /\
      row = [PyStr c; PyStr (u "获取信息失败: " ++ exn_str e); PyStr (u "未知")].
Proof.
  intros Hs Hc H.
  destruct (@listing_rows RT args S h s before c after rest Hs Hc H)
    as (s1 & s2 & s3 & rows1 & row & rows2 & O1 & O2 & O3 & E & Hn & Hstep).
  exists s1, s2, s3, rows1, row, rows2.
  do 5 (split; [assumption |]).
  intros e Hin.
  destruct Hstep as [(e' & Eseg & Erow) | [(i & Eseg & _)
                    | [(i & e' & Eseg & _) | (i & st & Eseg & _)]]];
    rewrite Eseg in *; simpl in Hin.
  - destruct Hin as [Hin | []]. injection Hin as <-. split; [reflexivity | exact Erow].
  - destruct Hin as [Hin | [Hin | []]]; discriminate.
  - destruct Hin as [Hin | [Hin | [Hin | []]]]; discriminate.
  - destruct Hin as [Hin | [Hin | [Hin | []]]]; discriminate.
Qed.

Lemma describe_failure_witness :
  search Demo.defaults = false /\
  given (collection Demo.defaults) = false /\
  trace (Demo.serve Failures.flaky_describe_db) (@main Demo.runtime Demo.defaults) tt =
    opening Demo.defaults ++
    [EvListCollections (Ok ([u "docs"] ++ u "notes" :: [u "logs"]));
     Printed (Line (nl ++ u "集合列表:"));
     EvDescribeCollection (u "docs") (Ok Demo.docs_info);
     EvHasAttr (u "get_collection_stats") true;
     EvGetCollectionStats (u "docs") (Ok [(u "row_count", PyInt 1)]);
     EvDescribeCollection (u "notes") (Raise Failures.unavailable);
     EvDescribeCollection (u "logs") (Ok Demo.docs_info);
     EvHasAttr (u "get_collection_stats") true;
     EvGetCollectionStats (u "logs") (Ok [(u "row_count", PyInt 1)]);
     Printed (Grid listing_headers
                [[PyStr (u "docs"); PyStr (u "documents"); PyInt 1];
                 [PyStr (u "notes"); PyStr (u "获取信息失败: unavailable"); PyStr (u "未知")];
                 [PyStr (u "logs"); PyStr (u "documents"); PyInt 1]])] /\
  exists row,
    outcome (Demo.serve Failures.flaky_describe_db) (collection_row (u "notes")) tt
      = Done row /\
    row = [PyStr (u "notes"); PyStr (u "获取信息失败: unavailable"); PyStr (u "未知")].
Proof.
  split; [reflexivity |]. split; [reflexivity |].
  assert (T : trace (Demo.serve Failures.flaky_describe_db)
                (@main Demo.runtime Demo.defaults) tt
              = opening Demo.defaults
                ++ EvListCollections (Ok ([u "docs"] ++ u "notes" :: [u "logs"]))
                :: skipn 4 (trace (Demo.serve Failures.flaky_describe_db)
                              (@main Demo.runtime Demo.defaults) tt))
    by (vm_compute; reflexivity).
  split; [vm_compute; reflexivity |].
  destruct (@describe_failure_keeps_row Demo.runtime Demo.defaults unit
              (Demo.serve Failures.flaky_describe_db) tt [u "docs"] (u "notes") [u "logs"]
              _ eq_refl eq_refl T)
    as ([] & [] & [] & rows1 & row & rows2 & _ & O2 & _ & _ & _ & F).
  exists row. split; [exact O2 |].
  destruct (F Failures.unavailable) as (_ & ->).
  - vm_compute. auto.
  - vm_compute. reflexivity.
Defined.

(** *** Strings *)

Lemma str_eqb_eq (a b : pystr) : str_eqb a b = true <-> a = b.
Proof.
  revert b. induction a as [| x a IH]; intros [| y b]; simpl; split;
    try discriminate; try reflexivity.
  - intros H. apply andb_true_iff in H as [H1 H2].
    apply N.eqb_eq in H1. apply IH in H2. congruence.
  - intros H. injection H as -> ->. apply andb_true_iff. split.
    + apply N.eqb_refl.
    + apply IH. reflexivity.
Qed.

Lemma str_eqb_refl (a : pystr) : str_eqb a a = true.
Proof. apply str_eqb_eq. reflexivity. Qed.

Lemma str_eqb_sym (a b : pystr) : str_eqb a b = str_eqb b a.
Proof.
  destruct (str_eqb a b) eqn:E.
  - apply str_eqb_eq in E. subst. symmetry. apply str_eqb_refl.
  - destruct (str_eqb b a) eqn:E'; auto.
    apply str_eqb_eq in E'. subst. rewrite str_eqb_refl in E. discriminate.
Qed.

Lemma mem_In (k : pystr) (names : list pystr) : mem k names = true <-> In k names.
Proof.
  induction names as [| n names IH]; simpl.
  - split; [discriminate | tauto].
  - rewrite orb_true_iff, IH, str_eqb_eq. split; intros [H | H]; auto.
Qed.

(** *** Programs that only print, again *)

Lemma silent_run_lines {S A} (h : handler S) (p : prog A) (s : S) :
  silent p ->
  exists a, value p = Some a /\ run h p s = (lines p, a, s).
Proof.
  induction 1 as [a | o k Hk IH]; simpl.
  - eauto.
  - destruct IH as (a & Hv & E). rewrite E. eauto.
Qed.

Lemma silent_trace {S A} (h : handler S) (p : prog A) (s : S) :
  silent p -> trace h p s = lines p.
Proof.
  intros Hp. destruct (silent_run_lines h s Hp) as (a & _ & E).
  unfold trace. rewrite E. reflexivity.
Qed.

(** *** Inspection of one collection *)

Lemma select_fields_with_vectors (fields : list pystr) :
  select_fields true fields =
    (filter (fun name => negb (str_eqb name (u "id"))) fields ++ [u "id"],
     filter (fun name => negb (str_eqb name (u "id"))) fields ++ [u "id"]).
Proof.
  unfold select_fields.
  assert (H : mem (u "id") (filter (fun name => negb (str_eqb name (u "id"))) fields)
              = false).
  { destruct (mem _ _) eqn:E; auto.
    apply mem_In, filter_In in E as [_ E].
    rewrite str_eqb_refl in E. discriminate. }
  rewrite H. reflexivity.
Qed.

Lemma select_fields_nonempty (b : bool) (fields : list pystr) :
  snd (select_fields b fields) <> [].
Proof.
  destruct b.
  - rewrite select_fields_with_vectors. cbn [snd].
    intros H. apply app_eq_nil in H as [_ H]. discriminate.
  - unfold select_fields. cbv zeta.
    match goal with |- context [mem (u "id") ?l] => set (out := l) end.
    destruct (mem (u "id") out) eqn:E; cbn [negb snd].
    + intros H. rewrite H in E. discriminate.
    + intros H. apply app_eq_nil in H as [_ H]. discriminate.
Qed.

Section ShowMode.
Context {RT : Runtime} {S : Type} (h : handler S).

Opaque show_results select_fields.

Lemma show_data_run (args : Args) (info : collection_info) (s : S) :
  exists r s',
    trace h (show_data args info) s =
      read_event args (snd (select_fields (show_vectors args) (fields_of info))) r ::
      match r with
      | Ok results =>
          lines (show_results args
                   (fst (select_fields (show_vectors args) (fields_of info))) results)
          ++ match value (show_results args
                            (fst (select_fields (show_vectors args) (fields_of info)))
                            results) with
             | Some (Raised e) => read_failure_report e
             | _ => []
             end
      | Raise e => read_failure_report e
      end
    /\ (forall e, outcome h (show_data args info) s <> Raised e)
    /\ final h (show_data args info) s = s'.
Proof.
  unfold trace, outcome, final, show_data, read_event, fields_of.
  pose proof (select_fields_nonempty (show_vectors args)
                match info_fields info with Some fs => fs | None => [] end) as Hne.
  destruct (select_fields _ _) as [names out]. cbn [fst snd] in *.
  destruct out as [| o out]; [congruence |].
  rewrite run_try_except. unfold client_query. rewrite run_bindM. cbn [run].
  destruct (h _ s) as [r s1]. exists r, s1.
  destruct r as [results | e]; cbn [of_result].
  - destruct (silent_run_lines h s1 (silent_show_results args names results))
      as (c & Hv & E).
    rewrite E, Hv.
    destruct c as [[] | | e]; simpl; rewrite ?app_nil_r; repeat split; discriminate.
  - simpl. repeat split; discriminate.
Qed.

Transparent show_results select_fields.
Opaque show_data.

Lemma show_mode_run (args : Args) (s : S) :
  (exists e, trace h (show_mode args) s =
     [EvHasCollection (arg_str (collection args)) (Raise e);
      Printed (Line (u "获取集合信息失败: " ++ exn_str e))])
  \/ trace h (show_mode args) s =
       [EvHasCollection (arg_str (collection args)) (Ok false);
        Printed (Line (u "集合 '" ++ arg_str (collection args) ++ u "' 不存在"))]
  \/ (exists e, trace h (show_mode args) s =
        [EvHasCollection (arg_str (collection args)) (Ok true);
         EvDescribeCollection (arg_str (collection args)) (Raise e);
         Printed (Line (u "获取集合信息失败: " ++ exn_str e))])
  \/ (exists info s', trace h (show_mode args) s =
        [EvHasCollection (arg_str (collection args)) (Ok true);
         EvDescribeCollection (arg_str (collection args)) (Ok info);
         Printed (Line (nl ++ u "集合 '" ++ arg_str (collection args) ++ u "' 信息:"));
         Printed (Line (u "描述: " ++ py_str match info_description info with
                                            | Some d => d
                                            | None => PyStr (u "无")
                                            end))]
        ++ trace h (show_data args info) s').
Proof.
  unfold trace, show_mode. simpl.
  destruct (h (HasCollection _) s) as [r s1].
  destruct r as [[|] | e]; simpl.
  - destruct (h (DescribeCollection _) s1) as [r s2].
    destruct r as [info | e]; simpl.
    + right; right; right. exists info, s2.
      rewrite run_bind.
      destruct (show_data_run args info s2) as (r & s3 & _ & Hno & _).
      unfold outcome in Hno.
      destruct (run h (show_data args info) s2) as [[t c] s4]. simpl in Hno.
      destruct c as [[] | | e]; simpl; rewrite ?app_nil_r; try reflexivity.
      destruct (Hno e). reflexivity.
    + right; right; left. exists e. reflexivity.
  - right; left. reflexivity.
  - left. exists e. reflexivity.
Qed.

Transparent show_data.

End ShowMode.

Lemma inspection_reached {RT : Runtime} (args : Args) (S : Type) (h : handler S) (s : S)
    (info : collection_info) rest :
  search args = false ->
  given (collection args) = true ->
  trace h (main args) s = inspection_prefix args info ++ rest ->
  exists s', rest = trace h (show_data args info) s'.
Proof.
  intros Hs Hc H. unfold inspection_prefix in H. rewrite <- app_assoc in H.
  apply main_connected in H as [s1 H]. unfold mode in H. rewrite Hs, Hc in H.
  simpl in H.
  destruct (show_mode_run h args s1) as [[e E] | [E | [[e E] | (i & s2 & E)]]];
    rewrite E in H; try discriminate.
  injection H as <- H. exists s2. congruence.
Qed.

(** C2 (as amended).  With vector display, the read is asked for every
    schema field except the id field, in schema order, followed by the
    id field, which is always added. *)
Theorem vector_display_output_fields
  {RT : Runtime} (args : Args) (S : Type) (h : handler S) (s : S)
  (info : collection_info) rest :
  search args = false ->
  given (collection args) = true ->
  show_vectors args = true ->
  trace h (main args) s = inspection_prefix args info ++ rest ->
  exists r tail,
    rest = EvQuery (arg_str (collection args)) empty
                   (filter (fun name => negb (str_eqb name (u "id"))) (fields_of info)
                      ++ [u "id"])
                   (limit args) (Some (offset args)) r :: tail
    /\ forall f,
         In f (filter (fun name => negb (str_eqb name (u "id"))) (fields_of info)
                 ++ [u "id"])
         <-> (In f (fields_of info) /\ f <> u "id") \/ f = u "id".
Proof.
  intros Hs Hc Hv H.
  apply inspection_reached in H as [s' ->]; auto.
  destruct (show_data_run h args info s') as (r & s'' & E & _).
  rewrite Hv, select_fields_with_vectors in E. cbn [fst snd] in E.
  rewrite E. exists r. eexists. split; [reflexivity |].
  intros f. rewrite in_app_iff, filter_In. simpl.
  rewrite negb_true_iff. split.
  - intros [[Hin Hne] | [<- | []]]; auto.
    left. split; auto. intros ->. rewrite str_eqb_refl in Hne. discriminate.
  - intros [[Hin Hne] | ->]; auto.
    left. split; auto. destruct (str_eqb f (u "id")) eqn:E'; auto.
    apply str_eqb_eq in E'. contradiction.
Qed.

Lemma vector_display_witness :
  search Inspection.inspect_with_vectors = false /\
  given (collection Inspection.inspect_with_vectors) = true /\
  show_vectors Inspection.inspect_with_vectors = true /\
  In (EvQuery (u "docs") empty [u "text"; u "embedding"; u "source"; u "id"] 10 (Some 0%Z)
              (Ok [Demo.doc1]))
     (trace (Demo.serve Demo.docs_db)
        (@main Demo.runtime Inspection.inspect_with_vectors) tt).
Proof.
  split; [reflexivity |]. split; [reflexivity |]. split; [reflexivity |].
  destruct (@vector_display_output_fields Demo.runtime Inspection.inspect_with_vectors unit
              (Demo.serve Demo.docs_db) tt Demo.docs_info
              (skipn 7 (trace (Demo.serve Demo.docs_db)
                          (@main Demo.runtime Inspection.inspect_with_vectors) tt))
              eq_refl eq_refl eq_refl) as (r & tail & E & _).
  - vm_compute. reflexivity.
  - vm_compute. do 7 right. left. reflexivity.
Defined.

(** C2 (as stated) fails: for the schema id, text, embedding, source
    the read is asked for text, embedding, source and id; the id field
    is among the output fields. *)
Lemma vector_display_counterexample :
  In (EvQuery (u "docs") empty [u "text"; u "embedding"; u "source"; u "id"] 10 (Some 0%Z)
              (Ok [Demo.doc1]))
     (trace (Demo.serve Demo.docs_db)
        (@main Demo.runtime Inspection.inspect_with_vectors) tt)
  /\ fields_of Demo.docs_info = [u "id"; u "text"; u "embedding"; u "source"]
  /\ ~ all_but_id (fields_of Demo.docs_info)
         [u "text"; u "embedding"; u "source"; u "id"].
Proof.
  split; [| split].
  - vm_compute. do 7 right. left. reflexivity.
  - reflexivity.
  - intros H. destruct (H (u "id")) as [H1 _].
    destruct H1 as [_ Hne].
    + simpl. auto.
    + apply Hne. reflexivity.
Qed.

(** *** What a program prints *)

Lemma lines_bind {A B} (p : prog A) (f : A -> prog B) :
  lines (bind p f) = lines p ++ match value p with Some a => lines (f a) | None => [] end.
Proof.
  induction p as [a | o k IH | c k IH]; simpl.
  - reflexivity.
  - rewrite IH. reflexivity.
  - reflexivity.
Qed.

Lemma value_bind {A B} (p : prog A) (f : A -> prog B) :
  value (bind p f) = match value p with Some a => value (f a) | None => None end.
Proof.
  induction p as [a | o k IH | c k IH]; simpl; auto.
Qed.

Lemma lines_bindM {A B} (p : M A) (f : A -> M B) :
  lines (bindM p f) =
    lines p ++ match value p with Some (Done a) => lines (f a) | _ => [] end.
Proof.
  unfold bindM. rewrite lines_bind.
  destruct (value p) as [[a | | e] |]; reflexivity.
Qed.

Lemma value_bindM {A B} (p : M A) (f : A -> M B) :
  value (bindM p f) =
    match value p with
    | Some (Done a) => value (f a)
    | Some Returned => Some Returned
    | Some (Raised e) => Some (Raised e)
    | None => None
    end.
Proof.
  unfold bindM. rewrite value_bind.
  destruct (value p) as [[a | | e] |]; reflexivity.
Qed.

Lemma straight_value {A} (p : M A) :
  straight p -> (exists a, value p = Some (Done a)) \/ (exists e, value p = Some (Raised e)).
Proof.
  induction 1; simpl; eauto.
Qed.

Lemma straight_bindM {A B} (p : M A) (f : A -> M B) :
  straight p -> (forall a, straight (f a)) -> straight (bindM p f).
Proof.
  intros Hp Hf. unfold bindM. induction Hp; simpl; auto; constructor; auto.
Qed.

Lemma straight_print s : straight (print s).
Proof. repeat constructor. Qed.

Lemma straight_lift {A} (r : result A) : straight (lift r).
Proof. destruct r; constructor. Qed.

Lemma straight_ret {A} (a : A) : straight (ret a).
Proof. constructor. Qed.

Lemma straight_for_each {A} (body : A -> M unit) xs :
  (forall x, straight (body x)) -> straight (for_each body xs).
Proof.
  intros Hb. induction xs; simpl.
  - constructor.
  - apply straight_bindM; auto.
Qed.

Ltac straighten :=
  repeat first
    [ apply straight_print | apply straight_lift | apply straight_ret
    | apply straight_bindM | apply straight_for_each
    | intro
    | match goal with
      | |- straight (match ?x with _ => _ end) => destruct x
      end ].

Lemma straight_show_fields {RT : Runtime} args names item :
  straight (show_fields args names item).
Proof.
  unfold show_fields, show_id, show_text, show_reference, show_metadata,
    show_embedding, show_other_fields.
  straighten.
Qed.

(** *** The paged read *)

Section Paging.
Context {RT : Runtime}.

Lemma flat_map_seq_shift {A} (f : nat -> list A) (n : nat) :
  flat_map f (seq 1 n) = flat_map (fun k => f (S k)) (seq 0 n).
Proof.
  rewrite <- seq_shift. rewrite flat_map_concat_map, map_map, <- flat_map_concat_map.
  reflexivity.
Qed.

Lemma lines_show_item (args : Args) (names : list pystr) (item : dict) (j : nat) :
  lines (show_item args names (Z.of_nat j) item) =
    record_header args j :: lines (show_fields args names item)
  /\ value (show_item args names (Z.of_nat j) item) =
       value (show_fields args names item).
Proof.
  unfold show_item. rewrite lines_bindM, value_bindM. split; reflexivity.
Qed.

Lemma lines_show_items (args : Args) (names : list pystr) (items : list dict) (j : nat) :
  lines (for_enumerate (show_item args names) (Z.of_nat j) items) =
    flat_map (fun k => record_header args (j + k)
                         :: lines (show_fields args names (nth k items [])))
             (seq 0 (begun args names items))
  /\ value (for_enumerate (show_item args names) (Z.of_nat j) items) =
       match first_failure args names items with
       | Some e => Some (Raised e)
       | None => Some (Done tt)
       end
  /\ begun args names items <= length items
  /\ (first_failure args names items = None -> begun args names items = length items).
Proof.
  revert j. induction items as [| item items IH]; intros j.
  - simpl. repeat split; auto.
  - cbn [for_enumerate begun first_failure length].
    rewrite lines_bindM, value_bindM.
    destruct (lines_show_item args names item j) as [-> ->].
    replace (Z.of_nat j + 1)%Z with (Z.of_nat (S j)) by lia.
    destruct (IH (S j)) as (IHl & IHv & IHb & IHf).
    destruct (straight_value (straight_show_fields args names item))
      as [[[] Hv] | [e Hv]]; rewrite Hv.
    + rewrite IHl, IHv. cbn [seq flat_map nth].
      rewrite flat_map_seq_shift, Nat.add_0_r. repeat split.
      * cbn [app]. f_equal. f_equal.
        apply flat_map_ext. intros k. rewrite Nat.add_succ_r. reflexivity.
      * lia.
      * intros H. rewrite IHf; auto.
    + cbn [seq flat_map nth].
      rewrite Nat.add_0_r, !app_nil_r. repeat split.
      * lia.
      * discriminate.
Qed.

End Paging.

(** C9.  In the paged read, the line above the records gives the range
    [offset + 1] to [offset + n] for the [n] records returned, and the
    record at position [i] (from 0) is displayed under the header
    number [offset + i + 1].  The records are displayed in order, each
    header followed by the fields of its record; all [n] of them are,
    unless the display of one raises, which ends the listing with the
    failure report. *)
Theorem paged_read_numbering
  {RT : Runtime} (args : Args) (S : Type) (h : handler S) (s : S)
  (info : collection_info) (results : list dict)
  (c f : pystr) (out : list pystr) (l : Z) (off : option Z) rest :
  search args = false ->
  given (collection args) = true ->
  results <> [] ->
  trace h (main args) s
    = inspection_prefix args info ++ EvQuery c f out l off (Ok results) :: rest ->
  rest =
    range_line args (length results)
      :: flat_map
           (fun i =>
              record_header args i
                :: lines (show_fields args
                            (fst (select_fields (show_vectors args) (fields_of info)))
                            (nth i results [])))
           (seq 0 (begun args (fst (select_fields (show_vectors args) (fields_of info)))
                     results))
      ++ match first_failure args
                 (fst (select_fields (show_vectors args) (fields_of info))) results with
         | Some e => read_failure_report e
         | None => []
         end
  /\ begun args (fst (select_fields (show_vectors args) (fields_of info))) results
       <= length results
  /\ (first_failure args (fst (select_fields (show_vectors args) (fields_of info))) results
        = None ->
      begun args (fst (select_fields (show_vectors args) (fields_of info))) results
        = length results).
Proof.
  intros Hs Hc Hne H.
  apply inspection_reached in H as [s' H]; auto.
  destruct (show_data_run h args info s') as (r & s'' & E & _).
  rewrite <- H in E. unfold read_event in E. injection E as _ _ _ _ _ <- ->.
  set (names := fst (select_fields (show_vectors args) (fields_of info))).
  destruct (lines_show_items args names results 0) as (Hl & Hv & Hb & Hf).
  destruct results as [| item items]; [congruence |].
  unfold show_results. rewrite lines_bindM, value_bindM.
  cbn [print lines value app]. change 0%Z with (Z.of_nat 0).
  rewrite Hl, Hv. repeat split; auto.
  unfold range_line. f_equal. f_equal.
  destruct (first_failure args names (item :: items)); reflexivity.
Qed.

Lemma paged_read_witness :
  search Inspection.inspect_page = false /\
  given (collection Inspection.inspect_page) = true /\
  trace (Demo.serve Inspection.two_docs_db) (@main Demo.runtime Inspection.inspect_page) tt =
    @inspection_prefix Demo.runtime Inspection.inspect_page Demo.docs_info ++
    [EvQuery (u "docs") empty [u "text"; u "id"] 2 (Some 20%Z)
       (Ok [Demo.doc1; Inspection.doc2]);
     Printed (Line (nl ++ u "数据 (显示 21 - 22 条):"));
     Printed (Line (nl ++ u "--- 数据 #21 ---"));
     Printed (Line (u "ID: 7"));
     Printed (Line (u "文本: hello"));
     Printed (Line (nl ++ u "--- 数据 #22 ---"));
     Printed (Line (u "ID: 8"));
     Printed (Line (u "文本: world"))].
Proof.
  split; [reflexivity |]. split; [reflexivity |].
  destruct (@paged_read_numbering Demo.runtime Inspection.inspect_page unit
              (Demo.serve Inspection.two_docs_db) tt Demo.docs_info
              [Demo.doc1; Inspection.doc2] (u "docs") empty [u "text"; u "id"] 2
              (Some 20%Z)
              (skipn 8 (trace (Demo.serve Inspection.two_docs_db)
                          (@main Demo.runtime Inspection.inspect_page) tt))
              eq_refl eq_refl) as (E & _).
  - discriminate.
  - vm_compute. reflexivity.
  - vm_compute. reflexivity.
Defined.

(** *** The displayed text *)

Section TextDisplay.
Context {RT : Runtime}.

Lemma shorten_str (text : pystr) : shorten (PyStr text) = Ok (PyStr (displayed text)).
Proof.
  unfold shorten, displayed, py_len, py_slice_to, py_add_str, slice_to.
  destruct (Nat.leb_spec (length text) 100) as [H | H].
  - replace (Z.of_nat (length text) >? 100)%Z with false; [reflexivity |].
    symmetry. rewrite Z.gtb_ltb. apply Z.ltb_ge. lia.
  - replace (Z.of_nat (length text) >? 100)%Z with true; [reflexivity |].
    symmetry. rewrite Z.gtb_ltb. apply Z.ltb_lt. lia.
Qed.

Lemma lines_show_text (item : dict) (text : pystr) :
  lookup (u "text") item = Some (PyStr text) ->
  lines (show_text item) = [Printed (Line (u "文本: " ++ displayed text))]
  /\ value (show_text item) = Some (Done tt).
Proof.
  intros H. unfold show_text. rewrite H, shorten_str. split; reflexivity.
Qed.

End TextDisplay.

(** C4.  A text of at most 100 characters is displayed as it is; a
    longer one is displayed as its first 97 characters followed by
    three dots, 100 characters in all.  This is the text line of a
    search hit (right after the header of the hit) and of a record of
    the paged read (after the header and the id line). *)
Theorem text_display {RT : Runtime} (text : pystr) :
  shorten (PyStr text) = Ok (PyStr (displayed text))
  /\ (length text <= 100 -> displayed text = text)
  /\ (100 < length text ->
      displayed text = firstn 97 text ++ u "..." /\ length (displayed text) = 100)
  /\ (forall (S : Type) (h : handler S) (s : S) (i : Z) (hit : dict) score shown,
        lookup (u "text") hit = Some (PyStr text) ->
        lookup (u "score") hit = Some score ->
        format_4f score = Ok shown ->
        exists after,
          trace h (show_hit i hit) s =
            Printed (Line (nl ++ u "--- 相似结果 #" ++ str_of_int (i + 1)
                              ++ u " (相似度得分: " ++ shown ++ u ") ---"))
              :: Printed (Line (u "文本: " ++ displayed text)) :: after)
  /\ (forall (S : Type) (h : handler S) (s : S) (args : Args) (names : list pystr)
             (i : Z) (item : dict),
        lookup (u "text") item = Some (PyStr text) ->
        exists after,
          trace h (show_item args names i item) s =
            Printed (Line (nl ++ u "--- 数据 #" ++ str_of_int (offset args + i + 1)
                              ++ u " ---"))
              :: lines (show_id item)
              ++ Printed (Line (u "文本: " ++ displayed text)) :: after).
Proof.
  split; [apply shorten_str |].
  split; [| split; [| split]].
  - intros H. unfold displayed.
    destruct (Nat.leb_spec (length text) 100); [reflexivity | lia].
  - intros H. unfold displayed.
    destruct (Nat.leb_spec (length text) 100); [lia |].
    split; [reflexivity |].
    rewrite length_app, firstn_length_le by lia. reflexivity.
  - intros S h s i hit score shown Ht Hs Hf.
    rewrite (silent_trace h s (silent_show_hit i hit)).
    unfold show_hit, py_getitem. rewrite Hs.
    rewrite lines_bindM. cbn [lift of_result lines value app].
    rewrite lines_bindM, Hf. cbn [lift of_result lines value app].
    rewrite lines_bindM. cbn [print lines value app].
    rewrite lines_bindM.
    destruct (lines_show_text hit Ht) as [-> ->].
    eexists. reflexivity.
  - intros S h s args names i item Ht.
    rewrite (silent_trace h s (silent_show_item args names i item)).
    unfold show_item, show_fields.
    rewrite lines_bindM. cbn [print lines value app].
    rewrite lines_bindM.
    assert (Hid : value (show_id item) = Some (Done tt)).
    { unfold show_id. destruct (lookup (u "id") item); reflexivity. }
    rewrite Hid, lines_bindM.
    destruct (lines_show_text item Ht) as [-> ->].
    eexists. cbn [app]. reflexivity.
Qed.

Lemma text_display_witness :
  100 < length (repeat 97%N 101) /\
  displayed (repeat 97%N 101) = repeat 97%N 97 ++ u "..." /\
  length (displayed (repeat 97%N 101)) = 100 /\
  length (repeat 97%N 100) <= 100 /\
  displayed (repeat 97%N 100) = repeat 97%N 100 /\
  trace (Demo.serve Demo.docs_db)
    (@show_item Demo.runtime Inspection.inspect_page [] 0
       [(u "text", PyStr (repeat 97%N 101))]) tt =
    [Printed (Line (nl ++ u "--- 数据 #21 ---"));
     Printed (Line (u "文本: " ++ repeat 97%N 97 ++ u "..."))].
Proof.
  destruct (@text_display Demo.runtime (repeat 97%N 101)) as (_ & _ & Long & _ & Paged).
  destruct (@text_display Demo.runtime (repeat 97%N 100)) as (_ & Short & _).
  assert (H101 : 100 < length (repeat 97%N 101)) by (rewrite repeat_length; lia).
  assert (H100 : length (repeat 97%N 100) <= 100) by (rewrite repeat_length; lia).
  destruct (Long H101) as [E L].
  split; [exact H101 |].
  split; [rewrite E; reflexivity |].
  split; [exact L |].
  split; [exact H100 |].
  split; [exact (Short H100) |].
  destruct (Paged unit (Demo.serve Demo.docs_db) tt Inspection.inspect_page []
              0%Z [(u "text", PyStr (repeat 97%N 101))] eq_refl) as [after T].
  rewrite T. vm_compute in T. injection T as <-. vm_compute. reflexivity.
Defined.

(* ================================================================= *)
(** ** Further properties of the tool *)

(** *** No exception escapes *)





Lemma contained_return_ {A} : contained (@return_ A).
Proof. constructor. Qed.







(** *** The calls the tool makes *)

Lemma within_bind {A B} (P : call -> Prop) (p : prog A) (f : A -> prog B) :
  calls_within P p -> (forall a, calls_within P (f a)) -> calls_within P (bind p f).
Proof.
  intros Hp Hf. induction Hp; simpl; auto; constructor; auto.
Qed.

Lemma within_bindM {A B} (P : call -> Prop) (p : M A) (f : A -> M B) :
  calls_within P p -> (forall a, calls_within P (f a)) -> calls_within P (bindM p f).
Proof.
  intros Hp Hf. apply within_bind; auto. intros [a | | e]; auto; constructor.
Qed.

Lemma within_try_except {A} (P : call -> Prop) (p : M A) (f : exn -> M A) :
  calls_within P p -> (forall e, calls_within P (f e)) -> calls_within P (try_except p f).
Proof.
  intros Hp Hf. apply within_bind; auto. intros [a | | e]; auto; constructor.
Qed.

Lemma within_try_except_class {A} (P : call -> Prop) cls (p : M A) (f : M A) :
  calls_within P p -> calls_within P f -> calls_within P (try_except_class cls p f).
Proof.
  intros Hp Hf. apply within_bind; auto. intros [a | | e]; try constructor.
  destruct (str_eqb (exn_type e) cls); auto; constructor.
Qed.

Lemma within_silent {A} (P : call -> Prop) (p : prog A) :
  silent p -> calls_within P p.
Proof. induction 1; constructor; auto. Qed.

Lemma within_weaken {A} (P Q : call -> Prop) (p : prog A) :
  (forall c, P c -> Q c) -> calls_within P p -> calls_within Q p.
Proof. intros HPQ. induction 1; constructor; auto. Qed.

Lemma within_run {S A} (P : call -> Prop) (h : handler S) (p : prog A) (s : S) :
  calls_within P p ->
  forall e c, In e (trace h p s) -> event_call e = Some c -> P c.
Proof.
  unfold trace. intros Hp. revert s.
  induction Hp as [a | o k Hk IH | c0 k Hc Hk IH]; intros s e c; simpl.
  - tauto.
  - specialize (IH s e c). destruct (run h k s) as [[t a] s']. simpl in *.
    intros [<- | Hin]; [discriminate | auto].
  - destruct (h c0 s) as [r s1]. specialize (IH r s1 e c).
    destruct (run h (k r) s1) as [[t a] s']. simpl in *.
    intros [<- | Hin]; auto.
    destruct c0; simpl; intros H; injection H as <-; exact Hc.
Qed.

Ltac within :=
  repeat first
    [ apply within_silent; solve [quiet]
    | apply within_bindM | apply within_try_except | apply within_try_except_class
    | apply within_ret | apply within_out
    | intro
    | match goal with
      | |- calls_within _ (match ?x with _ => _ end) => destruct x
      end ].

Section Permitted.
Context {RT : Runtime}.

Lemma select_fields_has_id (b : bool) (fields : list pystr) :
  In (u "id") (snd (select_fields b fields)).
Proof.
  destruct b.
  - rewrite select_fields_with_vectors. cbn [snd].
    apply in_or_app. right. left. reflexivity.
  - unfold select_fields. cbv zeta.
    match goal with |- context [mem (u "id") ?l] => set (out := l) end.
    destruct (mem (u "id") out) eqn:E; cbn [negb snd].
    + apply mem_In. exact E.
    + apply in_or_app. right. left. reflexivity.
Qed.

Lemma permitted_do_search args v :
  search args = true -> given (collection args) = true ->
  calls_within (permitted args) (do_search args v).
Proof.
  intros Hs Hc. unfold do_search, client_search.
  apply within_bindM; [| intros; constructor].
  apply within_try_except.
  - apply within_bindM.
    + constructor; [simpl; repeat split; auto | intros r; constructor].
    + intros results. apply within_silent. apply silent_show_hits.
  - intros e. apply within_silent. unfold print_exc. quiet.
Qed.

Lemma permitted_search_mode args :
  search args = true -> calls_within (permitted args) (search_mode args).
Proof.
  intros Hs. unfold search_mode.
  destruct (given (collection args)) eqn:Hc; cbn [negb].
  - apply within_try_except; [| intros; apply within_silent; quiet].
    apply within_bindM.
    + unfold client_has_collection. constructor; [split; auto | intros; constructor].
    + intros found. destruct (negb found); [apply within_silent; quiet |].
      apply within_bindM; [| intros; apply permitted_do_search; auto].
      unfold resolve_search_vector.
      destruct (search_id args) as [id |] eqn:Hid.
      * unfold vector_of_id, client_query.
        apply within_try_except; [| intros; apply within_silent; quiet].
        apply within_bindM.
        -- constructor; [| intros; constructor].
           simpl. split; auto. split; auto. left. exists id. repeat split; auto.
        -- intros result. apply within_silent. quiet.
      * destruct (given (search_vector args)).
        -- apply within_silent. unfold vector_of_json, try_except_class.
           apply silent_bind; [quiet |].
           intros [a | | e]; try constructor.
           destruct (str_eqb _ _); quiet.
        -- apply within_silent. quiet.
  - apply within_silent. quiet.
Qed.

Lemma permitted_collection_rows args cs :
  search args = false -> given (collection args) = false ->
  calls_within (permitted args) (collection_rows cs).
Proof.
  intros Hs Hc. induction cs as [| c cs IH]; cbn [collection_rows].
  - constructor.
  - apply within_bindM; [| intros; apply within_bindM; [exact IH | intros; constructor]].
    unfold collection_row, row_count, client_describe_collection, hasattr,
      client_get_collection_stats.
    apply within_try_except; [| intros; constructor].
    apply within_bindM.
    + constructor; [| intros; constructor].
      simpl. split; auto. rewrite Hc. discriminate.
    + intros info. apply within_bindM; [| intros; constructor].
      apply within_try_except; [| intros; constructor].
      apply within_bindM.
      * constructor; [simpl; auto | intros; constructor].
      * intros supported. destruct supported; [| constructor].
        apply within_bindM.
        -- constructor; [simpl; auto | intros; constructor].
        -- intros stats. destruct stats; [constructor |].
           destruct (lookup _ _); constructor.
Qed.

Lemma permitted_list_mode args :
  search args = false -> given (collection args) = false ->
  calls_within (permitted args) list_mode.
Proof.
  intros Hs Hc. unfold list_mode, client_list_collections.
  apply within_try_except; [| intros; apply within_silent; quiet].
  apply within_bindM.
  - constructor; [simpl; auto | intros; constructor].
  - intros cs. destruct cs as [| c cs]; [apply within_silent; quiet |].
    apply within_bindM; [apply within_silent; quiet |]. intros _.
    apply within_bindM; [apply permitted_collection_rows; auto |].
    intros rows. apply within_silent. unfold print_grid. quiet.
Qed.

Lemma permitted_show_mode args :
  search args = false -> given (collection args) = true ->
  calls_within (permitted args) (show_mode args).
Proof.
  intros Hs Hc. unfold show_mode, client_has_collection, client_describe_collection.
  apply within_try_except; [| intros; apply within_silent; quiet].
  apply within_bindM.
  - constructor; [simpl; auto | intros; constructor].
  - intros found. destruct (negb found); [apply within_silent; quiet |].
    apply within_bindM.
    + constructor; [simpl; auto | intros; constructor].
    + intros info.
      apply within_bindM; [apply within_silent; quiet |]. intros _.
      apply within_bindM; [apply within_silent; quiet |]. intros _.
      unfold show_data.
      apply within_try_except; [| intros; apply within_silent; unfold print_exc; quiet].
      pose proof (select_fields_has_id (show_vectors args)
                    match info_fields info with Some fs => fs | None => [] end) as Hid.
      destruct (select_fields _ _) as [names out]. cbn [snd] in Hid.
      destruct out as [| o out]; [apply within_silent; quiet |].
      unfold client_query. apply within_bindM.
      * constructor; [| intros; constructor].
        simpl. split; auto. split; auto. right. repeat split; auto.
      * intros results. apply within_silent. apply silent_show_results.
Qed.

Lemma permitted_main args : calls_within (permitted args) (main args).
Proof.
  unfold main, path_exists, connect. apply within_bindM.
  - constructor; [reflexivity | intros; constructor].
  - intros present. destruct (negb present); [apply within_silent; quiet |].
    apply within_bindM.
    + apply within_try_except; [| intros; apply within_silent; quiet].
      apply within_bindM; [| intros; apply within_silent; quiet].
      constructor; [simpl; auto | intros; constructor].
    + intros _. destruct (search args) eqn:Hs; [apply permitted_search_mode; auto |].
      destruct (given (collection args)) eqn:Hc; cbn [negb].
      * apply permitted_show_mode; auto.
      * apply permitted_list_mode; auto.
Qed.

End Permitted.

(** X2.  Every call of a run of [main] is one the command line
    permits: the file test and the connection use the given uri, token
    and database; [has_collection], queries and searches only ever
    name the collection given; without [--search] no search is made
    and every read asks for the id field, with the given limit and
    offset and no filter; with [--search] the only query is the lookup
    of the given id, and every search is on the field ["embedding"]
    with metric L2, one vector, limit [top_k] and output fields text,
    reference, metadata; collections are listed, and their statistics
    read, only when neither [--search] nor a collection is given. *)
Theorem calls_are_permitted
  {RT : Runtime} (args : Args) (S : Type) (h : handler S) (s : S) (e : event) (c : call) :
  In e (trace h (main args) s) ->
  event_call e = Some c ->
  permitted args c.
Proof.
  apply within_run. apply permitted_main.
Qed.

Lemma calls_are_permitted_witness :
  In (EvSearch (u "docs")
        [PyList [PyFloat (Float64 4591870180066957722);
                 PyFloat (Float64 4596373779694328218);
                 PyFloat (Float64 4599075939470750515)]]
        (u "embedding") [(u "metric_type", PyStr (u "L2"))] 3
        [u "text"; u "reference"; u "metadata"]
        (Ok [[(u "score", PyInt 0) :: Demo.doc1]]))
     (trace (Demo.serve Demo.docs_db) (@main Demo.runtime Cases.search_by_vector) tt)
  /\ permitted Cases.search_by_vector
       (Search (u "docs")
          [PyList [PyFloat (Float64 4591870180066957722);
                   PyFloat (Float64 4596373779694328218);
                   PyFloat (Float64 4599075939470750515)]]
          (u "embedding") [(u "metric_type", PyStr (u "L2"))] 3
          [u "text"; u "reference"; u "metadata"]).
Proof.
  assert (H : In (EvSearch (u "docs")
        [PyList [PyFloat (Float64 4591870180066957722);
                 PyFloat (Float64 4596373779694328218);
                 PyFloat (Float64 4599075939470750515)]]
        (u "embedding") [(u "metric_type", PyStr (u "L2"))] 3
        [u "text"; u "reference"; u "metadata"]
        (Ok [[(u "score", PyInt 0) :: Demo.doc1]]))
     (trace (Demo.serve Demo.docs_db) (@main Demo.runtime Cases.search_by_vector) tt)).
  { vm_compute. do 5 right. left. reflexivity. }
  split; [exact H |].
  exact (@calls_are_permitted Demo.runtime Cases.search_by_vector unit
           (Demo.serve Demo.docs_db) tt _ _ H eq_refl).
Defined.

(** *** No call is repeated *)

Lemma once_free {A} (Q : call -> bool) (p : prog A) :
  calls_within (fun c => Q c = false) p -> at_most_once Q p.
Proof.
  induction 1.
  - constructor.
  - constructor; auto.
  - apply once_miss; auto.
Qed.

Lemma once_bind_then_free {A B} (Q : call -> bool) (p : prog A) (f : A -> prog B) :
  at_most_once Q p ->
  (forall a, calls_within (fun c => Q c = false) (f a)) ->
  at_most_once Q (bind p f).
Proof.
  intros Hp Hf. induction Hp; simpl.
  - apply once_free. auto.
  - constructor; auto.
  - apply once_hit; auto. intros r. apply within_bind; auto.
  - apply once_miss; auto.
Qed.

Lemma once_bind_free_then {A B} (Q : call -> bool) (p : prog A) (f : A -> prog B) :
  calls_within (fun c => Q c = false) p ->
  (forall a, at_most_once Q (f a)) ->
  at_most_once Q (bind p f).
Proof.
  intros Hp Hf. induction Hp; simpl.
  - auto.
  - constructor; auto.
  - apply once_miss; auto.
Qed.

Lemma once_bindM_then_free {A B} (Q : call -> bool) (p : M A) (f : A -> M B) :
  at_most_once Q p ->
  (forall a, calls_within (fun c => Q c = false) (f a)) ->
  at_most_once Q (bindM p f).
Proof.
  intros Hp Hf. apply once_bind_then_free; auto.
  intros [a | | e]; auto; constructor.
Qed.

Lemma once_bindM_free_then {A B} (Q : call -> bool) (p : M A) (f : A -> M B) :
  calls_within (fun c => Q c = false) p ->
  (forall a, at_most_once Q (f a)) ->
  at_most_once Q (bindM p f).
Proof.
  intros Hp Hf. apply once_bind_free_then; auto.
  intros [a | | e]; auto; constructor.
Qed.

Lemma once_try_except {A} (Q : call -> bool) (p : M A) (f : exn -> M A) :
  at_most_once Q p -> (forall e, silent (f e)) -> at_most_once Q (try_except p f).
Proof.
  intros Hp Hf. apply once_bind_then_free; auto.
  intros [a | | e]; try constructor. apply within_silent. auto.
Qed.

Lemma free_run {S A} (Q : call -> bool) (h : handler S) (p : prog A) (s : S) :
  calls_within (fun c => Q c = false) p -> calls_of Q (trace h p s) = [].
Proof.
  unfold trace, calls_of. intros Hp. revert s.
  induction Hp as [a | o k Hk IH | c k Hc Hk IH]; intros s; simpl.
  - reflexivity.
  - specialize (IH s). destruct (run h k s) as [[t a] s']. simpl in *. exact IH.
  - destruct (h c s) as [r s1]. specialize (IH r s1).
    destruct (run h (k r) s1) as [[t a] s']. simpl in *.
    replace (event_call (observe c r)) with (Some c) by (destruct c; reflexivity).
    rewrite Hc. exact IH.
Qed.

Lemma once_run {S A} (Q : call -> bool) (h : handler S) (p : prog A) (s : S) :
  at_most_once Q p -> length (calls_of Q (trace h p s)) <= 1.
Proof.
  intros Hp. revert s.
  induction Hp as [a | o k Hk IH | c k Hc Hk | c k Hc Hk IH]; intros s.
  - unfold trace, calls_of. simpl. lia.
  - specialize (IH s). unfold trace, calls_of in *. simpl.
    destruct (run h k s) as [[t a] s']. simpl in *. exact IH.
  - unfold trace, calls_of. simpl. destruct (h c s) as [r s1].
    pose proof (@free_run _ _ Q h _ s1 (Hk r)) as F. unfold trace, calls_of in F.
    destruct (run h (k r) s1) as [[t a] s']. simpl in *.
    replace (event_call (observe c r)) with (Some c) by (destruct c; reflexivity).
    rewrite Hc, F. simpl. lia.
  - unfold trace, calls_of in *. simpl. destruct (h c s) as [r s1].
    specialize (IH r s1).
    destruct (run h (k r) s1) as [[t a] s']. simpl in *.
    replace (event_call (observe c r)) with (Some c) by (destruct c; reflexivity).
    rewrite Hc. exact IH.
Qed.

Section Once.
Context {RT : Runtime}.

Lemma free_collection_rows (Q : call -> bool) (cs : list pystr) :
  (forall n, Q (DescribeCollection n) = false) ->
  (forall a, Q (HasAttr a) = false) ->
  (forall n, Q (GetCollectionStats n) = false) ->
  calls_within (fun c => Q c = false) (collection_rows cs).
Proof.
  intros Hd Ha Hg. induction cs as [| c cs IH]; cbn [collection_rows].
  - constructor.
  - apply within_bindM; [| intros; apply within_bindM; [exact IH | intros; constructor]].
    unfold collection_row, row_count, client_describe_collection, hasattr,
      client_get_collection_stats.
    apply within_try_except; [| intros; constructor].
    apply within_bindM; [constructor; [apply Hd | intros; constructor] |].
    intros info. apply within_bindM; [| intros; constructor].
    apply within_try_except; [| intros; constructor].
    apply within_bindM; [constructor; [apply Ha | intros; constructor] |].
    intros supported. destruct supported; [| constructor].
    apply within_bindM; [constructor; [apply Hg | intros; constructor] |].
    intros stats. destruct stats; [constructor |].
    destruct (lookup _ _); constructor.
Qed.

Lemma silent_vector_of_json text : silent (vector_of_json text).
Proof.
  unfold vector_of_json, try_except_class.
  apply silent_bind; [quiet |].
  intros [a | | e]; try constructor.
  destruct (str_eqb _ _); quiet.
Qed.

End Once.

Ltac hush :=
  first [ apply silent_show_hits | apply silent_show_results
        | apply silent_vector_of_json
        | unfold print_grid, print_exc; solve [quiet] ].

Ltac free :=
  repeat first
    [ apply within_silent; hush
    | apply free_collection_rows; reflexivity
    | apply within_bindM | apply within_try_except
    | apply within_call; [reflexivity |]
    | apply within_ret | apply within_out
    | intro
    | match goal with
      | |- calls_within _ (match ?x with _ => _ end) => destruct x
      end ].

Ltac single :=
  first
    [ solve [apply once_free; free]
    | lazymatch goal with
      | |- at_most_once _ (bindM _ _) =>
          first [ solve [apply once_bindM_then_free; [single | intros; free]]
                | solve [apply once_bindM_free_then; [free | intros; single]] ]
      | |- at_most_once _ (try_except _ _) =>
          apply once_try_except; [single | intros; hush]
      | |- at_most_once _ (Call _ _) =>
          first [ solve [apply once_hit; [reflexivity | intros; free]]
                | solve [apply once_miss; [reflexivity | intros; single]] ]
      | |- at_most_once _ (match ?x with _ => _ end) => destruct x; single
      | |- at_most_once _ (let '(_, _) := ?x in _) => destruct x; single
      end ].

Ltac open_main :=
  unfold main, search_mode, list_mode, show_mode, show_data, resolve_search_vector,
    vector_of_id, do_search, path_exists, connect, client_has_collection,
    client_list_collections, client_describe_collection, client_query, client_search.

Lemma once_main {RT : Runtime} (args : Args) :
  at_most_once is_connect_call (main args) /\
  at_most_once is_has_collection_call (main args) /\
  at_most_once is_list_call (main args) /\
  at_most_once is_query_call (main args) /\
  at_most_once is_search_call (main args).
Proof.
  repeat split; open_main; single.
Qed.

(** X3.  No call is repeated or retried: a run of [main] connects at
    most once, checks for the collection at most once, lists the
    collections at most once, queries at most once and searches at
    most once. *)
Theorem no_call_is_repeated
  {RT : Runtime} (args : Args) (S : Type) (h : handler S) (s : S) :
  length (calls_of is_connect_call (trace h (main args) s)) <= 1 /\
  length (calls_of is_has_collection_call (trace h (main args) s)) <= 1 /\
  length (calls_of is_list_call (trace h (main args) s)) <= 1 /\
  length (calls_of is_query_call (trace h (main args) s)) <= 1 /\
  length (calls_of is_search_call (trace h (main args) s)) <= 1.
Proof.
  destruct (once_main args) as (H1 & H2 & H3 & H4 & H5).
  repeat split; apply once_run; assumption.
Qed.

(** *** Failures before the mode is entered *)

(** X4.  No call reaches the database unless the file exists and the
    connection has succeeded: a run in which anything other than the
    connection itself is asked of the client starts with the
    successful file test, the successful connection and the message
    announcing it. *)
Theorem client_calls_follow_the_connection
  {RT : Runtime} (args : Args) (S : Type) (h : handler S) (s : S) (e : event) :
  In e (trace h (main args) s) ->
  is_client_call e = true ->
  is_connect e = false ->
  exists rest, trace h (main args) s = opening args ++ rest.
Proof.
  intros Hin Hc Hn.
  destruct (main_cases args h s) as [E | [[x E] | [s' E]]]; rewrite E in *.
  - destruct Hin as [<- | [<- | []]]; discriminate.
  - destruct Hin as [<- | [<- | [<- | []]]]; discriminate.
  - eauto.
Qed.

Lemma client_calls_follow_the_connection_witness :
  In (EvHasCollection (u "docs") (Ok true))
     (trace (Demo.serve Demo.docs_db) (@main Demo.runtime Paths.inspect_docs) tt)
  /\ exists rest,
       trace (Demo.serve Demo.docs_db) (@main Demo.runtime Paths.inspect_docs) tt
         = opening Paths.inspect_docs ++ rest.
Proof.
  assert (H : In (EvHasCollection (u "docs") (Ok true))
                (trace (Demo.serve Demo.docs_db)
                   (@main Demo.runtime Paths.inspect_docs) tt)).
  { vm_compute. do 3 right. left. reflexivity. }
  split; [exact H |].
  exact (@client_calls_follow_the_connection Demo.runtime Paths.inspect_docs unit
           (Demo.serve Demo.docs_db) tt _ H eq_refl eq_refl).
Defined.

(** X5.  When the connection raises, its error text is reported in one
    message and the run is over: nothing else is asked or printed,
    whatever the mode. *)
Theorem connection_failure_reported
  {RT : Runtime} (args : Args) (S : Type) (h : handler S) (s : S)
  (uri' token' db' : pystr) (e : exn) rest :
  trace h (main args) s
    = EvPathExists (uri args) true :: EvConnect uri' token' db' (Raise e) :: rest ->
  uri' = uri args /\ token' = token args /\ db' = db args /\
  rest = [Printed (Line (u "连接Milvus Lite数据库失败: " ++ exn_str e))].
Proof.
  intros H.
  destruct (main_cases args h s) as [E | [[x E] | [s' E]]]; rewrite E in H.
  - discriminate.
  - injection H as <- <- <- <- <-. auto.
  - discriminate.
Qed.

Lemma connection_failure_witness :
  trace (Demo.serve Paths.locked_db) (@main Demo.runtime Demo.defaults) tt
    = [EvPathExists (u "./milvus.db") true;
       EvConnect (u "./milvus.db") (u "root:Milvus") (u "default") (Raise Paths.refused);
       Printed (Line (u "连接Milvus Lite数据库失败: refused"))].
Proof.
  assert (H : trace (Demo.serve Paths.locked_db) (@main Demo.runtime Demo.defaults) tt
              = EvPathExists (uri Demo.defaults) true
                  :: EvConnect (u "./milvus.db") (u "root:Milvus") (u "default")
                       (Raise Paths.refused)
                  :: skipn 2 (trace (Demo.serve Paths.locked_db)
                                (@main Demo.runtime Demo.defaults) tt))
    by (vm_compute; reflexivity).
  destruct (@connection_failure_reported Demo.runtime Demo.defaults unit
              (Demo.serve Paths.locked_db) tt _ _ _ _ _ H) as (_ & _ & _ & R).
  rewrite H, R. vm_compute. reflexivity.
Defined.

(** *** Search mode: what comes before the query vector *)

(** X6.  A search without a collection name is refused after the
    connection: the message of line 73 is printed and no collection
    check, query or search is made, whichever of id, vector and text
    are given. *)
Theorem search_requires_a_collection
  {RT : Runtime} (args : Args) (S : Type) (h : handler S) (s : S) rest :
  search args = true ->
  given (collection args) = false ->
  trace h (main args) s = opening args ++ rest ->
  rest = [Printed (Line (u "错误: 执行搜索时必须指定集合名称 (--collection)"))].
Proof.
  intros Hs Hc H.
  apply main_connected in H as [s' ->]. unfold mode. rewrite Hs.
  unfold trace, search_mode. rewrite Hc. reflexivity.
Qed.

Lemma search_requires_a_collection_witness :
  search Paths.search_nowhere = true /\
  given (collection Paths.search_nowhere) = false /\
  trace (Demo.serve Demo.docs_db) (@main Demo.runtime Paths.search_nowhere) tt
    = opening Paths.search_nowhere
      ++ [Printed (Line (u "错误: 执行搜索时必须指定集合名称 (--collection)"))].
Proof.
  split; [reflexivity |]. split; [reflexivity |].
  assert (H : trace (Demo.serve Demo.docs_db) (@main Demo.runtime Paths.search_nowhere) tt
              = opening Paths.search_nowhere
                ++ skipn 3 (trace (Demo.serve Demo.docs_db)
                              (@main Demo.runtime Paths.search_nowhere) tt))
    by (vm_compute; reflexivity).
  rewrite H at 1.
  rewrite (@search_requires_a_collection Demo.runtime Paths.search_nowhere unit
             (Demo.serve Demo.docs_db) tt _ eq_refl eq_refl H).
  reflexivity.
Defined.

(** X7.  In search mode the collection check gates everything: when
    [has_collection] answers no, or raises, one message says so and
    the run is over; no id is looked up, no vector parsed and no
    search made. *)
Theorem search_stops_without_the_collection
  {RT : Runtime} (args : Args) (S : Type) (h : handler S) (s : S)
  (r : result bool) rest :
  search args = true ->
  given (collection args) = true ->
  trace h (main args) s
    = opening args ++ EvHasCollection (arg_str (collection args)) r :: rest ->
  r <> Ok true ->
  rest = [Printed (Line
            match r with
            | Raise e => u "执行搜索操作失败: " ++ exn_str e
            | Ok _ => u "错误: 集合 '" ++ arg_str (collection args) ++ u "' 不存在"
            end)].
Proof.
  intros Hs Hc H Hr.
  apply main_connected in H as [s' H]. unfold mode in H. rewrite Hs in H.
  destruct (search_mode_cases h args s' Hc) as [[e E] | [E | [s2 E]]];
    rewrite E in H; injection H as -> ->; try reflexivity.
  congruence.
Qed.

Lemma search_stops_without_the_collection_witness :
  search Cases.search_by_id = true /\
  given (collection Cases.search_by_id) = true /\
  trace (Demo.serve Paths.blank_db) (@main Demo.runtime Cases.search_by_id) tt
    = opening Cases.search_by_id
      ++ [EvHasCollection (u "docs") (Ok false);
          Printed (Line (u "错误: 集合 'docs' 不存在"))].
Proof.
  split; [reflexivity |]. split; [reflexivity |].
  assert (H : trace (Demo.serve Paths.blank_db) (@main Demo.runtime Cases.search_by_id) tt
              = opening Cases.search_by_id
                ++ EvHasCollection (arg_str (collection Cases.search_by_id)) (Ok false)
                :: skipn 4 (trace (Demo.serve Paths.blank_db)
                              (@main Demo.runtime Cases.search_by_id) tt))
    by (vm_compute; reflexivity).
  rewrite H at 1.
  rewrite (@search_stops_without_the_collection Demo.runtime Cases.search_by_id unit
             (Demo.serve Paths.blank_db) tt _ _ eq_refl eq_refl H);
    [vm_compute; reflexivity | discriminate].
Defined.

(** *** Search mode: the explicit vector *)

(** X8.  A vector given on the command line is parsed as JSON.  A JSON
    array of any length and content is taken as it is: its length is
    reported as the dimension and the search call that follows carries
    exactly that array.  Any other JSON value, and a text that is not
    JSON, are each refused with their own message; an exception of
    [json.loads] other than a decoding error ends in the handler of
    the outer [try].  None of the refusals makes a search. *)
Theorem explicit_vector_is_parsed
  {RT : Runtime} (args : Args) (S : Type) (h : handler S) (s : S) rest :
  search args = true ->
  given (collection args) = true ->
  search_id args = None ->
  given (search_vector args) = true ->
  trace h (main args) s
    = opening args ++ EvHasCollection (arg_str (collection args)) (Ok true) :: rest ->
  match json_loads (arg_str (search_vector args)) with
  | Ok (PyList l) =>
      exists r tail,
        rest = Printed (Line (dimension_message (length l)))
                 :: search_event args (PyList l) r :: tail
        /\ forallb is_printed tail = true
  | Ok _ =>
      rest = [Printed (Line (u "错误: 搜索向量必须是JSON数组格式"))]
  | Raise e =>
      rest = [Printed (Line
                (if str_eqb (exn_type e) (u "JSONDecodeError")
                 then u "错误: 搜索向量必须是有效的JSON数组"
                 else u "执行搜索操作失败: " ++ exn_str e))]
  end.
Proof.
  intros Hs Hc Hid Hv H.
  apply search_reaches_resolution in H as [s' ->]; auto.
  rewrite (resolve_by_vector h args s' Hid Hv).
  destruct (json_loads (arg_str (search_vector args))) as [v | e].
  - destruct v; try reflexivity.
    destruct (do_search_trace h args (PyList l) s') as (r & tail & E & Hp & _).
    exists r, tail. rewrite E. auto.
  - destruct (str_eqb (exn_type e) (u "JSONDecodeError")); reflexivity.
Qed.

Lemma explicit_vector_witness :
  search Paths.search_by_object = true /\
  given (collection Paths.search_by_object) = true /\
  search_id Paths.search_by_object = None /\
  given (search_vector Paths.search_by_object) = true /\
  trace (Demo.serve Demo.docs_db) (@main Demo.runtime Paths.search_by_object) tt
    = opening Paths.search_by_object
      ++ [EvHasCollection (u "docs") (Ok true);
          Printed (Line (u "错误: 搜索向量必须是有效的JSON数组"))].
Proof.
  split; [reflexivity |]. split; [reflexivity |].
  split; [reflexivity |]. split; [reflexivity |].
  assert (H : trace (Demo.serve Demo.docs_db) (@main Demo.runtime Paths.search_by_object) tt
              = opening Paths.search_by_object
                ++ EvHasCollection (arg_str (collection Paths.search_by_object)) (Ok true)
                :: skipn 4 (trace (Demo.serve Demo.docs_db)
                              (@main Demo.runtime Paths.search_by_object) tt))
    by (vm_compute; reflexivity).
  pose proof (@explicit_vector_is_parsed Demo.runtime Paths.search_by_object unit
                (Demo.serve Demo.docs_db) tt _ eq_refl eq_refl eq_refl eq_refl H) as R.
  assert (J : @json_loads Demo.runtime (arg_str (search_vector Paths.search_by_object))
              = Raise (Exn (u "JSONDecodeError") (u "Expecting value")))
    by (vm_compute; reflexivity).
  rewrite J in R. unfold exn_type in R.
  assert (B : str_eqb (u "JSONDecodeError") (u "JSONDecodeError") = true)
    by (vm_compute; reflexivity).
  rewrite B in R. rewrite H at 1. rewrite R. reflexivity.
Defined.

(** *** Search mode: the report *)

Section SearchReport.
Context {RT : Runtime}.

Lemma lines_for_enumerate {A} (body : Z -> A -> M unit) (xs : list A) (d : A) (j : nat) :
  (forall i x, exists a, value (body i x) = Some (Done a)) ->
  lines (for_enumerate body (Z.of_nat j) xs) =
    flat_map (fun k => lines (body (Z.of_nat (j + k)) (nth k xs d))) (seq 0 (length xs))
  /\ value (for_enumerate body (Z.of_nat j) xs) = Some (Done tt).
Proof.
  intros Hb. revert j. induction xs as [| x xs IH]; intros j.
  - split; reflexivity.
  - cbn [for_enumerate length seq flat_map nth].
    rewrite lines_bindM, value_bindM.
    destruct (Hb (Z.of_nat j) x) as [a ->].
    replace (Z.of_nat j + 1)%Z with (Z.of_nat (S j)) by lia.
    destruct (IH (S j)) as [-> ->].
    rewrite flat_map_seq_shift, Nat.add_0_r. split; [| reflexivity].
    f_equal. apply flat_map_ext. intros k. rewrite Nat.add_succ_r. reflexivity.
Qed.

Lemma show_hit_with_score (i : nat) (hit : dict) (score : pyval) (shown : pystr) :
  lookup (u "score") hit = Some score ->
  format_4f score = Ok shown ->
  lines (show_hit (Z.of_nat i) hit) = hit_header i shown :: lines (hit_fields hit)
  /\ value (show_hit (Z.of_nat i) hit) = value (hit_fields hit).
Proof.
  intros Hs Hf. unfold show_hit, py_getitem. rewrite Hs.
  rewrite lines_bindM, value_bindM. cbn [lift of_result lines value app].
  rewrite lines_bindM, value_bindM, Hf. cbn [lift of_result lines value app].
  rewrite lines_bindM, value_bindM. cbn [print lines value app].
  split; reflexivity.
Qed.

Lemma show_hit_without_score (i : Z) (hit : dict) :
  lookup (u "score") hit = None ->
  lines (show_hit i hit) = []
  /\ value (show_hit i hit) = Some (Raised (raise_of (MissingKey (u "score")))).
Proof.
  intros Hs. unfold show_hit, py_getitem. rewrite Hs.
  rewrite lines_bindM, value_bindM. split; reflexivity.
Qed.

End SearchReport.

(** X9.  What follows the search call depends on its answer alone.  A
    search that raises is reported with its error text and a
    traceback.  An answer without result lists, or whose first list is
    empty, gives the one line saying that nothing similar was found.
    Otherwise the number of hits of the first list is announced and
    the hits of that list are displayed in order; if the display of a
    hit raises, the failure report of the search ends the output. *)
Theorem search_report
  {RT : Runtime} (args : Args) (v : pyval) (S : Type) (h : handler S) (s : S) :
  exists r,
    trace h (do_search args v) s =
      search_event args v r ::
      match r with
      | Raise e => search_failure_report e
      | Ok [] | Ok ([] :: _) => [Printed (Line (u "未找到相似结果"))]
      | Ok (hits :: _) =>
          found_line (length hits)
            :: lines (for_enumerate show_hit 0 hits)
            ++ match value (for_enumerate show_hit 0 hits) with
               | Some (Raised e) => search_failure_report e
               | _ => []
               end
      end
    /\ outcome h (do_search args v) s = Returned.
Proof.
  unfold trace, outcome, do_search, search_event.
  rewrite run_bindM, run_try_except. unfold client_search at 1.
  rewrite run_bindM. simpl.
  destruct (h _ s) as [r s1]. exists r.
  destruct r as [results | e]; simpl; [| split; reflexivity].
  destruct (silent_run_lines h s1 (silent_show_hits results)) as (c & Hv & E).
  rewrite E. cbn iota beta.
  destruct results as [| [| hit hits] others].
  - cbn in Hv. injection Hv as <-. split; reflexivity.
  - cbn in Hv. injection Hv as <-. split; reflexivity.
  - unfold show_hits in *. rewrite lines_bindM. rewrite value_bindM in Hv.
    cbn [print lines value app] in *. unfold found_line.
    rewrite Hv.
    destruct c as [[] | | e]; simpl; rewrite ?app_nil_r; split; reflexivity.
Qed.

(** X10.  Hits are numbered from 1 in the order of the answer: when
    every hit has a score that can be formatted and fields that can be
    displayed, the hit at position [k] (from 0) is displayed under a
    header with the number [k + 1] and its score, followed by its
    text, reference, metadata and id.  A hit without a score prints
    nothing at all and raises the key error for ["score"], which ends
    the report. *)
Theorem hits_are_numbered_from_one {RT : Runtime} (hits : list dict) :
  ((forall hit, In hit hits ->
      exists score shown,
        lookup (u "score") hit = Some score /\ format_4f score = Ok shown /\
        value (hit_fields hit) = Some (Done tt)) ->
   lines (for_enumerate show_hit 0 hits) =
     flat_map (fun k => lines (show_hit (Z.of_nat k) (nth k hits []))) (seq 0 (length hits))
   /\ value (for_enumerate show_hit 0 hits) = Some (Done tt))
  /\ (forall k hit score shown,
        lookup (u "score") hit = Some score ->
        format_4f score = Ok shown ->
        lines (show_hit (Z.of_nat k) hit) = hit_header k shown :: lines (hit_fields hit))
  /\ (forall k hit,
        lookup (u "score") hit = None ->
        lines (show_hit k hit) = [] /\
        value (show_hit k hit) = Some (Raised (raise_of (MissingKey (u "score"))))).
Proof.
  split; [| split].
  - intros Hall.
    assert (G : forall (j : nat),
              lines (for_enumerate show_hit (Z.of_nat j) hits) =
                flat_map (fun k => lines (show_hit (Z.of_nat (j + k)) (nth k hits [])))
                  (seq 0 (length hits))
              /\ value (for_enumerate show_hit (Z.of_nat j) hits) = Some (Done tt)).
    { induction hits as [| hit hits IH]; intros j.
      - split; reflexivity.
      - cbn [for_enumerate length seq flat_map nth].
        rewrite lines_bindM, value_bindM.
        destruct (Hall hit (or_introl eq_refl)) as (score & shown & Hs & Hf & Hv).
        destruct (show_hit_with_score j hit Hs Hf) as [_ Hval].
        rewrite Hval, Hv.
        replace (Z.of_nat j + 1)%Z with (Z.of_nat (S j)) by lia.
        destruct (IH (fun x Hx => Hall x (or_intror Hx)) (S j)) as [-> ->].
        rewrite flat_map_seq_shift, Nat.add_0_r. split; [| reflexivity].
        f_equal. apply flat_map_ext. intros k. rewrite Nat.add_succ_r. reflexivity. }
    exact (G 0).
  - intros k hit score shown Hs Hf. apply (show_hit_with_score k hit Hs Hf).
  - intros k hit Hs. apply show_hit_without_score. exact Hs.
Qed.

Lemma hits_are_numbered_witness :
  lines (for_enumerate (@show_hit Demo.runtime) 0 [Hits.first_hit; Hits.second_hit]) =
    [Printed (Line (nl ++ u "--- 相似结果 #1 (相似度得分: 0.0000) ---"));
     Printed (Line (u "文本: hello"));
     Printed (Line (u "ID: 7"));
     Printed (Line (nl ++ u "--- 相似结果 #2 (相似度得分: 2.0000) ---"));
     Printed (Line (u "参考: a.txt"))].
Proof.
  destruct (@hits_are_numbered_from_one Demo.runtime [Hits.first_hit; Hits.second_hit])
    as (All & _ & _).
  destruct All as [E _].
  - intros hit [<- | [<- | []]].
    + exists (PyInt 0), (u "0.0000"). repeat split; vm_compute; reflexivity.
    + exists (PyInt 2), (u "2.0000"). repeat split; vm_compute; reflexivity.
  - rewrite E. vm_compute. reflexivity.
Defined.

(** *** Listing mode *)

(** X11.  When the database has no collection, one line says so and
    no table is printed; when [list_collections] raises, its error
    text is reported.  In both cases nothing is described and no
    statistics are read. *)
Theorem listing_without_collections
  {RT : Runtime} (args : Args) (S : Type) (h : handler S) (s : S)
  (r : result (list pystr)) rest :
  search args = false ->
  given (collection args) = false ->
  trace h (main args) s = opening args ++ EvListCollections r :: rest ->
  (forall c cs, r <> Ok (c :: cs)) ->
  rest = [Printed (Line
            match r with
            | Raise e => u "获取集合列表失败: " ++ exn_str e
            | Ok _ => u "当前数据库中没有集合"
            end)].
Proof.
  intros Hs Hc H Hr.
  apply main_connected in H as [s' H]. unfold mode in H. rewrite Hs, Hc in H.
  cbn [negb] in H.
  destruct (list_mode_trace h s') as (r' & s2 & E). rewrite E in H.
  injection H as -> ->.
  destruct r' as [[| c cs] | e]; auto.
  destruct (Hr c cs). reflexivity.
Qed.

Lemma listing_without_collections_witness :
  search Demo.defaults = false /\
  given (collection Demo.defaults) = false /\
  trace (Demo.serve Paths.blank_db) (@main Demo.runtime Demo.defaults) tt
    = opening Demo.defaults
      ++ [EvListCollections (Ok []); Printed (Line (u "当前数据库中没有集合"))].
Proof.
  split; [reflexivity |]. split; [reflexivity |].
  assert (H : trace (Demo.serve Paths.blank_db) (@main Demo.runtime Demo.defaults) tt
              = opening Demo.defaults
                ++ EvListCollections (Ok [])
                :: skipn 4 (trace (Demo.serve Paths.blank_db)
                              (@main Demo.runtime Demo.defaults) tt))
    by (vm_compute; reflexivity).
  rewrite H at 1.
  rewrite (@listing_without_collections Demo.runtime Demo.defaults unit
             (Demo.serve Paths.blank_db) tt _ _ eq_refl eq_refl H);
    [reflexivity | discriminate].
Defined.

(** X12.  Each collection of the list costs one [describe_collection]
    call.  Its statistics are read only if that call succeeded and the
    client has a [get_collection_stats] method.  The count shown is
    the entry ["row_count"] of non-empty statistics; without that
    entry, without the method, or when a call raises, it is the
    sentinel for "unknown".  The row is always appended: the turn of
    the loop never raises and never returns. *)
Theorem listing_row_contents
  {RT : Runtime} (args : Args) (S : Type) (h : handler S) (s : S)
  (before : list pystr) (c : pystr) (after : list pystr) rest :
  search args = false ->
  given (collection args) = false ->
  trace h (main args) s
    = opening args ++ EvListCollections (Ok (before ++ c :: after)) :: rest ->
  exists s1 s2 s3 rows1 row rows2,
    outcome h (collection_rows before) s1 = Done rows1 /\
    outcome h (collection_row c) s2 = Done row /\
    outcome h (collection_rows after) s3 = Done rows2 /\
    rest = Printed (Line (nl ++ u "集合列表:"))
             :: trace h (collection_rows before) s1
             ++ trace h (collection_row c) s2
             ++ trace h (collection_rows after) s3
             ++ [Printed (Grid listing_headers (rows1 ++ row :: rows2))] /\
    ((exists e,
        trace h (collection_row c) s2 = [EvDescribeCollection c (Raise e)] /\
        row = [PyStr c; PyStr (u "获取信息失败: " ++ exn_str e); PyStr (u "未知")])
     \/ (exists info,
        trace h (collection_row c) s2 =
          [EvDescribeCollection c (Ok info);
           EvHasAttr (u "get_collection_stats") false] /\
        row = [PyStr c; description_or_empty info; PyStr (u "未知")])
     \/ (exists info e,
        trace h (collection_row c) s2 =
          [EvDescribeCollection c (Ok info);
           EvHasAttr (u "get_collection_stats") true;
           EvGetCollectionStats c (Raise e)] /\
        row = [PyStr c; description_or_empty info; PyStr (u "未知")])
     \/ (exists info stats,
        trace h (collection_row c) s2 =
          [EvDescribeCollection c (Ok info);
           EvHasAttr (u "get_collection_stats") true;
           EvGetCollectionStats c (Ok stats)] /\
        row = [PyStr c; description_or_empty info;
               match stats, lookup (u "row_count") stats with
               | _ :: _, Some n => n
               | _, _ => PyStr (u "未知")
               end])).
Proof.
  intros Hs Hc H.
  destruct (@listing_rows RT args S h s before c after rest Hs Hc H)
    as (s1 & s2 & s3 & rows1 & row & rows2 & O1 & O2 & O3 & E & Hn & Hstep).
  exists s1, s2, s3, rows1, row, rows2.
  do 4 (split; [assumption |]). exact Hstep.
Qed.

Lemma listing_row_contents_witness :
  search Demo.defaults = false /\
  given (collection Demo.defaults) = false /\
  trace (Demo.serve Demo.docs_db) (@main Demo.runtime Demo.defaults) tt =
    opening Demo.defaults ++
    [EvListCollections (Ok ([] ++ u "docs" :: []));
     Printed (Line (nl ++ u "集合列表:"));
     EvDescribeCollection (u "docs") (Ok Demo.docs_info);
     EvHasAttr (u "get_collection_stats") true;
     EvGetCollectionStats (u "docs") (Ok [(u "row_count", PyInt 1)]);
     Printed (Grid listing_headers [[PyStr (u "docs"); PyStr (u "documents"); PyInt 1]])].
Proof.
  split; [reflexivity |]. split; [reflexivity |].
  assert (H : trace (Demo.serve Demo.docs_db) (@main Demo.runtime Demo.defaults) tt
              = opening Demo.defaults
                ++ EvListCollections (Ok ([] ++ u "docs" :: []))
                :: skipn 4 (trace (Demo.serve Demo.docs_db)
                              (@main Demo.runtime Demo.defaults) tt))
    by (vm_compute; reflexivity).
  destruct (@listing_row_contents Demo.runtime Demo.defaults unit
              (Demo.serve Demo.docs_db) tt [] (u "docs") [] _ eq_refl eq_refl H)
    as (s1 & s2 & s3 & rows1 & row & rows2 & _).
  vm_compute. reflexivity.
Defined.

(** *** Inspection mode *)

(** X13.  In inspection mode the collection check and the description
    gate the read: when [has_collection] answers no, one line says
    that the collection does not exist; when it raises, or when
    [describe_collection] raises, the error text is reported.  In none
    of these cases is anything read. *)
Theorem inspection_stops_without_the_collection
  {RT : Runtime} (args : Args) (S : Type) (h : handler S) (s : S) rest :
  search args = false ->
  given (collection args) = true ->
  trace h (main args) s = opening args ++ rest ->
  (exists e,
     rest = [EvHasCollection (arg_str (collection args)) (Raise e);
             Printed (Line (u "获取集合信息失败: " ++ exn_str e))])
  \/ rest = [EvHasCollection (arg_str (collection args)) (Ok false);
             Printed (Line (u "集合 '" ++ arg_str (collection args) ++ u "' 不存在"))]
  \/ (exists e,
     rest = [EvHasCollection (arg_str (collection args)) (Ok true);
             EvDescribeCollection (arg_str (collection args)) (Raise e);
             Printed (Line (u "获取集合信息失败: " ++ exn_str e))])
  \/ (exists info tail,
     trace h (main args) s = inspection_prefix args info ++ tail).
Proof.
  intros Hs Hc H. rewrite H.
  apply main_connected in H as [s' ->]. unfold mode. rewrite Hs, Hc. cbn [negb].
  destruct (show_mode_run h args s') as [[e E] | [E | [[e E] | (i & s2 & E)]]];
    rewrite E.
  - left. eauto.
  - right; left. reflexivity.
  - right; right; left. eauto.
  - right; right; right. exists i. eexists.
    unfold inspection_prefix. rewrite <- app_assoc. reflexivity.
Qed.

Lemma inspection_stops_witness :
  search Paths.inspect_docs = false /\
  given (collection Paths.inspect_docs) = true /\
  trace (Demo.serve Paths.blank_db) (@main Demo.runtime Paths.inspect_docs) tt
    = opening Paths.inspect_docs
      ++ [EvHasCollection (u "docs") (Ok false);
          Printed (Line (u "集合 'docs' 不存在"))].
Proof.
  split; [reflexivity |]. split; [reflexivity |].
  assert (H : trace (Demo.serve Paths.blank_db) (@main Demo.runtime Paths.inspect_docs) tt
              = opening Paths.inspect_docs
                ++ skipn 3 (trace (Demo.serve Paths.blank_db)
                              (@main Demo.runtime Paths.inspect_docs) tt))
    by (vm_compute; reflexivity).
  destruct (@inspection_stops_without_the_collection Demo.runtime Paths.inspect_docs unit
              (Demo.serve Paths.blank_db) tt _ eq_refl eq_refl H)
    as [[e E] | [E | [[e E] | (i & t & E)]]];
    vm_compute; reflexivity.
Defined.

Section OutputFields.

Lemma mem_filter (k : pystr) (keep : pystr -> bool) (names : list pystr) :
  mem k (filter keep names) = mem k names && keep k.
Proof.
  induction names as [| n names IH]; simpl; auto.
  destruct (keep n) eqn:Hn; simpl; rewrite IH.
  - destruct (str_eqb k n) eqn:E; simpl; auto.
    apply str_eqb_eq in E. subst. rewrite Hn. reflexivity.
  - destruct (str_eqb k n) eqn:E; simpl; auto.
    apply str_eqb_eq in E. subst. rewrite Hn, andb_false_r. reflexivity.
Qed.

Lemma select_fields_without_vectors (fields : list pystr) :
  select_fields false fields =
    (filter (fun name => negb (mem name [u "id"; u "embedding"])) fields,
     filter (fun field => mem field fields) [u "text"; u "reference"; u "metadata"]
       ++ [u "id"]).
Proof.
  unfold select_fields. cbv zeta.
  set (names := filter (fun name => negb (mem name [u "id"; u "embedding"])) fields).
  assert (E : filter (fun field => mem field names)
                [u "text"; u "reference"; u "metadata"]
              = filter (fun field => mem field fields)
                  [u "text"; u "reference"; u "metadata"]).
  { apply filter_ext_in. intros f Hf. unfold names. rewrite mem_filter.
    destruct Hf as [<- | [<- | [<- | []]]];
      (replace (negb (mem _ [u "id"; u "embedding"])) with true
         by (vm_compute; reflexivity));
      apply andb_true_r. }
  rewrite E.
  assert (N : mem (u "id")
                (filter (fun field => mem field fields)
                   [u "text"; u "reference"; u "metadata"]) = false).
  { rewrite mem_filter.
    replace (mem (u "id") [u "text"; u "reference"; u "metadata"]) with false
      by (vm_compute; reflexivity).
    reflexivity. }
  rewrite N. reflexivity.
Qed.

End OutputFields.

(** X14.  Without vector display, the read is asked for those of text,
    reference and metadata that the schema has, in this order
    whatever the order of the schema, followed by the id field.  The
    vector field and every other field of the schema are never asked
    for.  The read has no filter and carries the given limit and
    offset; it is always made once the collection is described, so the
    warning about an empty set of fields (line 239) is never what
    follows the description. *)
Theorem plain_read_output_fields
  {RT : Runtime} (args : Args) (S : Type) (h : handler S) (s : S)
  (info : collection_info) rest :
  search args = false ->
  given (collection args) = true ->
  show_vectors args = false ->
  trace h (main args) s = inspection_prefix args info ++ rest ->
  exists r tail,
    rest = EvQuery (arg_str (collection args)) empty
                   (filter (fun field => mem field (fields_of info))
                           [u "text"; u "reference"; u "metadata"] ++ [u "id"])
                   (limit args) (Some (offset args)) r :: tail.
Proof.
  intros Hs Hc Hv H.
  apply inspection_reached in H as [s' ->]; auto.
  destruct (show_data_run h args info s') as (r & s'' & E & _).
  rewrite Hv, select_fields_without_vectors in E. cbn [fst snd] in E.
  rewrite E. exists r. eexists. reflexivity.
Qed.

Lemma plain_read_witness :
  search Paths.inspect_docs = false /\
  given (collection Paths.inspect_docs) = true /\
  show_vectors Paths.inspect_docs = false /\
  In (EvQuery (u "docs") empty [u "text"; u "id"] 10 (Some 0%Z) (Ok [Demo.doc1]))
     (trace (Demo.serve Demo.docs_db) (@main Demo.runtime Paths.inspect_docs) tt).
Proof.
  split; [reflexivity |]. split; [reflexivity |]. split; [reflexivity |].
  destruct (@plain_read_output_fields Demo.runtime Paths.inspect_docs unit
              (Demo.serve Demo.docs_db) tt Demo.docs_info
              (skipn 7 (trace (Demo.serve Demo.docs_db)
                          (@main Demo.runtime Paths.inspect_docs) tt))
              eq_refl eq_refl eq_refl) as (r & tail & E).
  - vm_compute. reflexivity.
  - vm_compute. do 7 right. left. reflexivity.
Defined.

(** X15.  When the read raises, three outputs report it: the error
    text, the name of the exception class and a traceback.  When the
    read returns no record, one line says that the collection has no
    data; no range line and no record header is printed. *)
Theorem read_failure_or_no_data
  {RT : Runtime} (args : Args) (S : Type) (h : handler S) (s : S)
  (info : collection_info) (c f : pystr) (out : list pystr) (l : Z) (off : option Z)
  (r : result (list dict)) rest :
  search args = false ->
  given (collection args) = true ->
  trace h (main args) s = inspection_prefix args info ++ EvQuery c f out l off r :: rest ->
  (forall item items, r <> Ok (item :: items)) ->
  rest = match r with
         | Raise e =>
             [Printed (Line (u "查询数据失败: " ++ exn_str e));
              Printed (Line (u "错误详情: " ++ exn_type e));
              Printed (Traceback e)]
         | Ok _ =>
             [Printed (Line (u "集合 '" ++ arg_str (collection args) ++ u "' 中没有数据"))]
         end.
Proof.
  intros Hs Hc H Hr.
  apply inspection_reached in H as [s' H]; auto.
  destruct (show_data_run h args info s') as (r' & s'' & E & _).
  rewrite <- H in E. unfold read_event in E. injection E as _ _ _ _ _ <- ->.
  destruct r as [[| item items] | e]; try reflexivity.
  destruct (Hr item items). reflexivity.
Qed.

Lemma read_failure_witness :
  search Paths.inspect_docs = false /\
  given (collection Paths.inspect_docs) = true /\
  trace (Demo.serve Paths.failing_db) (@main Demo.runtime Paths.inspect_docs) tt
    = @inspection_prefix Demo.runtime Paths.inspect_docs Demo.docs_info
      ++ [EvQuery (u "docs") empty [u "text"; u "id"] 10 (Some 0%Z) (Raise Paths.refused);
          Printed (Line (u "查询数据失败: refused"));
          Printed (Line (u "错误详情: MilvusException"));
          Printed (Traceback Paths.refused)].
Proof.
  split; [reflexivity |]. split; [reflexivity |].
  assert (H : trace (Demo.serve Paths.failing_db) (@main Demo.runtime Paths.inspect_docs) tt
              = @inspection_prefix Demo.runtime Paths.inspect_docs Demo.docs_info
                ++ EvQuery (u "docs") empty [u "text"; u "id"] 10 (Some 0%Z)
                     (Raise Paths.refused)
                :: skipn 8 (trace (Demo.serve Paths.failing_db)
                              (@main Demo.runtime Paths.inspect_docs) tt))
    by (vm_compute; reflexivity).
  rewrite H at 1.
  rewrite (@read_failure_or_no_data Demo.runtime Paths.inspect_docs unit
             (Demo.serve Paths.failing_db) tt _ _ _ _ _ _ _ _ eq_refl eq_refl H);
    [reflexivity | discriminate].
Defined.

(** *** The fields of a record *)

Section Fields.
Context {RT : Runtime}.

Lemma lines_for_each_print {A} (g : A -> pystr) (xs : list A) :
  lines (for_each (fun x => print (g x)) xs) = map (fun x => Printed (Line (g x))) xs
  /\ value (for_each (fun x => print (g x)) xs) = Some (Done tt).
Proof.
  induction xs as [| x xs [IHl IHv]]; cbn [for_each map].
  - split; reflexivity.
  - rewrite lines_bindM, value_bindM. cbn [print lines value app].
    rewrite IHl, IHv. split; reflexivity.
Qed.

End Fields.

(** X16.  The metadata of a record is displayed only when it is there
    and true: a non-empty dictionary gives the heading and one line
    per entry, in the order of the dictionary; a missing entry, or one
    whose value is false (an empty dictionary, [None], zero, an empty
    string), gives nothing.  A true value that is not a dictionary
    gives the heading and then raises, as it has no [items]. *)
Theorem metadata_display {RT : Runtime} (item : dict) :
  (lookup (u "metadata") item = None ->
   lines (show_metadata item) = [] /\ value (show_metadata item) = Some (Done tt))
  /\ (forall entry entries,
        lookup (u "metadata") item = Some (PyDict (entry :: entries)) ->
        lines (show_metadata item) =
          Printed (Line (u "元数据:")) :: map metadata_line (entry :: entries)
        /\ value (show_metadata item) = Some (Done tt))
  /\ (forall v,
        lookup (u "metadata") item = Some v ->
        py_truth v = Ok false ->
        lines (show_metadata item) = [] /\ value (show_metadata item) = Some (Done tt))
  /\ (forall v,
        lookup (u "metadata") item = Some v ->
        py_truth v = Ok true ->
        (forall d, v <> PyDict d) ->
        lines (show_metadata item) = [Printed (Line (u "元数据:"))]
        /\ value (show_metadata item) = Some (Raised (raise_of (NoItems v)))).
Proof.
  unfold show_metadata. split; [| split; [| split]].
  - intros ->. split; reflexivity.
  - intros entry entries ->.
    rewrite lines_bindM, value_bindM. cbn [py_truth length Nat.eqb negb lift of_result
                                             lines value app].
    rewrite lines_bindM, value_bindM. cbn [print lines value app].
    rewrite lines_bindM, value_bindM. cbn [py_items lift of_result lines value app].
    destruct (lines_for_each_print
                (fun kv : pystr * pyval => u "  " ++ fst kv ++ u ": " ++ py_str (snd kv))
                (entry :: entries)) as [El Ev].
    split; [f_equal; exact El | exact Ev].
  - intros v -> Hv. rewrite lines_bindM, value_bindM, Hv. split; reflexivity.
  - intros v -> Hv Hd. rewrite lines_bindM, value_bindM, Hv.
    cbn [lift of_result lines value app].
    rewrite lines_bindM, value_bindM. cbn [print lines value app].
    rewrite lines_bindM, value_bindM.
    destruct v; try (split; reflexivity).
    destruct (Hd d). reflexivity.
Qed.

Lemma metadata_display_witness :
  lookup (u "metadata") Records.tagged
    = Some (PyDict [(u "lang", PyStr (u "en")); (u "page", PyInt 12)]) /\
  lines (@show_metadata Demo.runtime Records.tagged) =
    [Printed (Line (u "元数据:"));
     Printed (Line (u "  lang: en"));
     Printed (Line (u "  page: 12"))].
Proof.
  split; [reflexivity |].
  destruct (@metadata_display Demo.runtime Records.tagged) as (_ & D & _).
  destruct (D (u "lang", PyStr (u "en")) [(u "page", PyInt 12)] eq_refl) as [E _].
  rewrite E. vm_compute. reflexivity.
Defined.

(** X17.  Whatever the text, what is displayed for it is at most 100
    characters long and begins with the first 97 characters of the
    text; displaying the displayed text again changes nothing. *)
Theorem displayed_text_is_bounded {RT : Runtime} (text : pystr) :
  exists shown,
    shorten (PyStr text) = Ok (PyStr shown) /\
    length shown <= 100 /\
    firstn 97 shown = firstn 97 text /\
    shorten (PyStr shown) = Ok (PyStr shown).
Proof.
  exists (displayed text). split; [apply shorten_str |].
  assert (B : length (displayed text) <= 100).
  { unfold displayed. destruct (Nat.leb_spec (length text) 100) as [H | H]; [exact H |].
    rewrite length_app, firstn_length_le by lia.
    replace (length (u "...")) with 3 by reflexivity. lia. }
  split; [exact B |]. split.
  - unfold displayed. destruct (Nat.leb_spec (length text) 100) as [H | H]; [reflexivity |].
    rewrite firstn_app, firstn_firstn, firstn_length_le by lia.
    replace (97 - 97) with 0 by lia. cbn [firstn].
    rewrite app_nil_r, Nat.min_id. reflexivity.
  - rewrite shorten_str. unfold displayed at 1.
    destruct (Nat.leb_spec (length (displayed text)) 100); [reflexivity | lia].
Qed.

(** X18.  A text without a length ([None], a boolean, a number) is not
    displayed: taking its length raises.  In the paged read the record
    then shows its id line at most, in a search hit nothing of the
    fields at all, and the display of the record raises. *)
Theorem text_without_length_raises
  {RT : Runtime} (args : Args) (names : list pystr) (item : dict) (v : pyval) :
  lookup (u "text") item = Some v ->
  scalar v = true ->
  (lines (show_fields args names item) = lines (show_id item) /\
   value (show_fields args names item) = Some (Raised (raise_of (NoLen v))))
  /\ (lines (hit_fields item) = [] /\
      value (hit_fields item) = Some (Raised (raise_of (NoLen v)))).
Proof.
  intros Ht Hv.
  assert (T : lines (show_text item) = [] /\
              value (show_text item) = Some (Raised (raise_of (NoLen v)))).
  { unfold show_text. rewrite Ht. rewrite lines_bindM, value_bindM.
    destruct v; try discriminate; split; reflexivity. }
  destruct T as [Tl Tv].
  assert (Hid : value (show_id item) = Some (Done tt)).
  { unfold show_id. destruct (lookup (u "id") item); reflexivity. }
  split.
  - unfold show_fields. rewrite lines_bindM, value_bindM, Hid.
    rewrite lines_bindM, value_bindM, Tl, Tv. rewrite app_nil_r. split; reflexivity.
  - unfold hit_fields. rewrite lines_bindM, value_bindM, Tl, Tv. split; reflexivity.
Qed.

Lemma text_without_length_witness :
  lookup (u "text") Records.untexted = Some PyNone /\
  scalar PyNone = true /\
  lines (@show_fields Demo.runtime Paths.inspect_docs [u "text"] Records.untexted)
    = [Printed (Line (u "ID: 4"))] /\
  value (@show_fields Demo.runtime Paths.inspect_docs [u "text"] Records.untexted)
    = Some (Raised (Exn (u "TypeError") (u "bad operand"))).
Proof.
  split; [reflexivity |]. split; [reflexivity |].
  destruct (@text_without_length_raises Demo.runtime Paths.inspect_docs [u "text"]
              Records.untexted PyNone eq_refl eq_refl) as [[L V] _].
  split.
  - rewrite L. vm_compute. reflexivity.
  - rewrite V. vm_compute. reflexivity.
Defined.

(** X19.  Without [--show_vectors] the vector of a record is never
    displayed.  With it, a vector that is a list is displayed as its
    full length, then the elements selected by [[:vector_preview]]
    (its first [vector_preview] elements when that number is not
    negative, never more than the vector has), then its norm to four
    decimals; the first two lines are already printed when the norm
    cannot be computed or formatted, in which case the display of the
    record raises. *)
Theorem vector_display {RT : Runtime} (args : Args) (item : dict) :
  (show_vectors args = false ->
   lines (show_embedding args item) = [] /\
   value (show_embedding args item) = Some (Done tt))
  /\ (forall l,
        show_vectors args = true ->
        lookup (u "embedding") item = Some (PyList l) ->
        lines (show_embedding args item) =
          Printed (Line (u "向量数据 (维度: " ++ str_of_int (Z.of_nat (length l)) ++ u "):"))
            :: Printed (Line (u "  前" ++ str_of_int (vector_preview args) ++ u "个元素: "
                                 ++ py_str (PyList (slice_to (vector_preview args) l))))
            :: match np_linalg_norm (PyList l) with
               | Ok norm =>
                   match format_4f norm with
                   | Ok shown => [Printed (Line (u "  范数: " ++ shown))]
                   | Raise _ => []
                   end
               | Raise _ => []
               end
        /\ value (show_embedding args item) =
             match np_linalg_norm (PyList l) with
             | Ok norm =>
                 match format_4f norm with
                 | Ok _ => Some (Done tt)
                 | Raise e => Some (Raised e)
                 end
             | Raise e => Some (Raised e)
             end
        /\ length (slice_to (vector_preview args) l) <= length l
        /\ ((0 <= vector_preview args)%Z ->
            slice_to (vector_preview args) l = firstn (Z.to_nat (vector_preview args)) l)).
Proof.
  unfold show_embedding. split.
  - intros ->. split; reflexivity.
  - intros l -> ->. cbn [is_list orb py_len py_slice_to].
    rewrite lines_bindM, value_bindM. cbn [lift of_result lines value app].
    rewrite lines_bindM, value_bindM. cbn [lift of_result lines value app].
    rewrite lines_bindM, value_bindM. cbn [print lines value app].
    rewrite lines_bindM, value_bindM. cbn [print lines value app].
    rewrite lines_bindM, value_bindM.
    split; [| split; [| split]].
    + destruct (np_linalg_norm (PyList l)) as [norm | e]; [| reflexivity].
      cbn [lift of_result lines value app].
      rewrite lines_bindM.
      destruct (format_4f norm) as [shown | e]; reflexivity.
    + destruct (np_linalg_norm (PyList l)) as [norm | e]; [| reflexivity].
      cbn [lift of_result lines value app].
      rewrite value_bindM.
      destruct (format_4f norm) as [shown | e]; reflexivity.
    + unfold slice_to. destruct (0 <=? vector_preview args)%Z;
        rewrite length_firstn; lia.
    + intros H. unfold slice_to.
      destruct (Z.leb_spec 0 (vector_preview args)); [reflexivity | lia].
Qed.

Lemma vector_display_lines_witness :
  show_vectors Records.preview_two = true /\
  lookup (u "embedding") Records.embedded = Some (PyList [PyInt 3; PyInt 4; PyInt 0]) /\
  lines (@show_embedding Demo.runtime Records.preview_two Records.embedded) =
    [Printed (Line (u "向量数据 (维度: 3):"));
     Printed (Line (u "  前2个元素: <value>"));
     Printed (Line (u "  范数: 1.0000"))] /\
  @slice_to pyval 2 [PyInt 3; PyInt 4; PyInt 0] = [PyInt 3; PyInt 4].
Proof.
  split; [reflexivity |]. split; [reflexivity |].
  destruct (@vector_display Demo.runtime Records.preview_two Records.embedded) as [_ V].
  destruct (V [PyInt 3; PyInt 4; PyInt 0] eq_refl eq_refl) as (L & _ & _ & F).
  split.
  - rewrite L. vm_compute. reflexivity.
  - exact (F ltac:(discriminate)).
Defined.
